(** * Chart-Similarity job service (src/main.py): a shallow embedding

    The FastAPI application keeps every job in one module-level Python
    dict, [jobs], keyed by job id; request handlers and the background
    analysis task read and write it.  This file embeds the handlers and
    the background task as functions over an explicit state (job store,
    the two directory trees, the scheduled background tasks) and proves
    or refutes the statements of the specification about them.

    Modelling decisions, all following the source:
    - a Python dict is an association list in insertion order
      ([jobs.items()] iterates in that order and [list.sort] is stable,
      so the order is observable);
    - an exception is a value of [exn]; a handler is a function
      [state -> result * state], so the writes made before a [raise]
      stay in the state, as in Python;
    - the file system is reduced to the directories under [uploads/]
      and [results/]; whether an individual file-system call raises is
      decided by an oracle of type [faults];
    - [time.time()], [uuid.uuid4()], the uploaded file and the behaviour
      of the analysis library are inputs chosen by the environment;
    - the name of an uploaded file is the string the client sent; the
      path of the file is what pathlib makes of it ([path_div]), and the
      file is written where that path leads ([write_upload]);
    - timestamps and the sampling rate are rationals, the values of the
      doubles of the program (every finite float is one); comparisons
      are exact, and the one subtraction, in [cleanup_old_jobs], is the
      rounded subtraction of doubles ([float_sub]);
    - a handler body runs atomically (the handlers are coroutines
      without an [await] between their reads and writes of [jobs]); the
      background task runs in a worker thread and is split into events:
      each progress callback, the end of the analysis with the work up
      to the write of [results.json], and each single write of the
      store after it, so that a request can be served between any two
      of them. *)

From stdpp Require Import base gmap strings list.
From Stdlib Require Import QArith Sorting.Sorted.

Local Open Scope string_scope.
Local Open Scope Z_scope.

(** ** Python values that can be the [results] of a job *)

#[local] Set Warnings "-register-all".

Inductive pyval : Type :=
| PNone
| PBool (b : bool)
| PInt (z : Z)
| PStr (s : string)
| PList (l : list pyval)
| PDict (d : list (string * pyval)).

(** Python truthiness, as used by [if x:] and [a and b]. *)
Definition truthy (v : pyval) : bool :=
  match v with
  | PNone => false
  | PBool b => b
  | PInt z => negb (z =? 0)
  | PStr s => negb (String.eqb s "")
  | PList l => match l with [] => false | _ => true end
  | PDict d => match d with [] => false | _ => true end
  end.

(** Truthiness of an [Optional[str]]. *)
Definition truthy_opt (c : option string) : bool :=
  match c with
  | None => false
  | Some s => negb (String.eqb s "")
  end.

(** ** Python dicts as insertion-ordered association lists *)

Section Dict.
Context {V : Type}.

(** [d.get(k)] / [d[k]] *)
Fixpoint dict_get (k : string) (d : list (string * V)) : option V :=
  match d with
  | [] => None
  | (k', v) :: d' => if String.eqb k' k then Some v else dict_get k d'
  end.

(** [k in d] *)
Definition dict_mem (k : string) (d : list (string * V)) : bool :=
  match dict_get k d with Some _ => true | None => false end.

(** [d[k] = v]: an existing key keeps its position, a new key goes last. *)
Fixpoint dict_set (k : string) (v : V) (d : list (string * V)) : list (string * V) :=
  match d with
  | [] => [(k, v)]
  | (k', v') :: d' =>
      if String.eqb k' k then (k, v) :: d' else (k', v') :: dict_set k v d'
  end.

(** [del d[k]] / [d.pop(k)] on a present key. *)
Definition dict_del (k : string) (d : list (string * V)) : list (string * V) :=
  filter (fun kv => negb (String.eqb (fst kv) k)) d.

(** A Python dict never holds a key twice. *)
Definition dict_wf (d : list (string * V)) : Prop := NoDup (map fst d).
End Dict.

(** ** Job records *)

Inductive job_status : Type := uploaded | processing | completed | failed.

(** [class AnalysisParams(BaseModel)]: the fields carry no validator. *)
Record AnalysisParams : Type := mkParams {
  fps : Q;
  detect_color : string;
  p_category : option string
}.

(** The dict stored under [jobs[job_id]].  The keys written by
    [upload_video] are always there; ["params"] and ["error"] are added
    later, so they are options ([None]: the key is missing). *)
Record job : Type := mkJob {
  j_id : string;
  j_status : job_status;
  j_filename : string;
  j_file_path : string;
  j_created_at : Q;
  j_results : pyval;
  j_progress : Z;
  j_category : option string;
  j_params : option AnalysisParams;
  j_error : option string
}.

Definition set_status (s : job_status) (j : job) : job :=
  mkJob (j_id j) s (j_filename j) (j_file_path j) (j_created_at j)
        (j_results j) (j_progress j) (j_category j) (j_params j) (j_error j).
Definition set_results (r : pyval) (j : job) : job :=
  mkJob (j_id j) (j_status j) (j_filename j) (j_file_path j) (j_created_at j)
        r (j_progress j) (j_category j) (j_params j) (j_error j).
Definition set_progress (p : Z) (j : job) : job :=
  mkJob (j_id j) (j_status j) (j_filename j) (j_file_path j) (j_created_at j)
        (j_results j) p (j_category j) (j_params j) (j_error j).
Definition set_category (c : option string) (j : job) : job :=
  mkJob (j_id j) (j_status j) (j_filename j) (j_file_path j) (j_created_at j)
        (j_results j) (j_progress j) c (j_params j) (j_error j).
Definition set_params (p : AnalysisParams) (j : job) : job :=
  mkJob (j_id j) (j_status j) (j_filename j) (j_file_path j) (j_created_at j)
        (j_results j) (j_progress j) (j_category j) (Some p) (j_error j).
Definition set_error (e : string) (j : job) : job :=
  mkJob (j_id j) (j_status j) (j_filename j) (j_file_path j) (j_created_at j)
        (j_results j) (j_progress j) (j_category j) (j_params j) (Some e).

(** ** Exceptions and the handler monad *)

(** File-system calls made by the handlers: [Path.mkdir], [open(.., "w")]
    followed by the write, and [shutil.rmtree]. *)
Inductive fs_op : Type :=
| Mkdir (path : string)
| OpenWrite (dir file : string)
| Rmtree (path : string).

(** [flt op = Some msg]: the call raises an [OSError] whose text is [msg]. *)
Definition faults : Type := fs_op -> option string.
Definition no_faults : faults := fun _ => None.

Inductive exn : Type :=
| HTTPException (status_code : Z) (detail : string)
| KeyError (key : string)
| TypeError (msg : string)
| OSError (msg : string)
| AnalysisError (msg : string).

Inductive result (A : Type) : Type :=
| Ok (a : A)
| Raise (e : exn).
Arguments Ok {A} a.
Arguments Raise {A} e.

(** The three writes of lines 220-222 of [run_analysis] and the two of
    lines 226-227.  The worker thread runs them as separate statements, so
    a request can be served between any two of them. *)
Inductive completion_write : Type := WriteStatus | WriteResults | WriteProgress.
Inductive failure_write : Type := WriteFailed | WriteError.

(** One background task, as queued by [background_tasks.add_task]:
    inside the analysis library; before one of the completion writes,
    with the results to store; before one of the failure writes, with the
    text of the exception; returned; ended by an exception that left
    [run_analysis]; ended by an exception of the analysis that
    [except Exception] does not catch ([SystemExit], [KeyboardInterrupt]). *)
Inductive task_state : Type :=
| Running
| Completing (serializable_results : pyval) (next : completion_write)
| Failing (msg : string) (next : failure_write)
| Returned
| Crashed (e : exn)
| Aborted (msg : string).

Record task : Type := mkTask {
  t_job_id : string;
  t_file_path : string;
  t_output_dir : string;
  t_fps : Q;
  t_category : option string;
  t_state : task_state
}.

(** [dirs] maps the path of each existing directory to the names of the
    files written into it. *)
Record state : Type := mkState {
  jobs : list (string * job);
  dirs : gmap string (gset string);
  tasks : list task
}.

Definition with_jobs (js : list (string * job)) (st : state) : state :=
  mkState js (dirs st) (tasks st).
Definition with_dirs (d : gmap string (gset string)) (st : state) : state :=
  mkState (jobs st) d (tasks st).
Definition with_tasks (ts : list task) (st : state) : state :=
  mkState (jobs st) (dirs st) ts.

Definition M (A : Type) : Type := state -> result A * state.

#[export] Instance M_ret : MRet M := fun A a st => (Ok a, st).
#[export] Instance M_bind : MBind M := fun A B f m st =>
  match m st with
  | (Ok a, st') => f a st'
  | (Raise e, st') => (Raise e, st')
  end.

#[export] Instance M_fmap : FMap M := fun A B f m st =>
  match m st with
  | (Ok a, st') => (Ok (f a), st')
  | (Raise e, st') => (Raise e, st')
  end.

Definition raise {A} (e : exn) : M A := fun st => (Raise e, st).
Definition get_state : M state := fun st => (Ok st, st).
Definition modify (f : state -> state) : M unit := fun st => (Ok tt, f st).

(** [try: body except Exception as e: handler(e)] *)
Definition try_except {A} (body : M A) (handler : exn -> M A) : M A := fun st =>
  match body st with
  | (Ok a, st') => (Ok a, st')
  | (Raise e, st') => handler e st'
  end.

Definition when (b : bool) (m : M unit) : M unit := if b then m else mret tt.

(** ** File-system primitives *)

(** [Path(p).mkdir(exist_ok=True)] *)
Definition mkdir_exist_ok (flt : faults) (p : string) : M unit := fun st =>
  match flt (Mkdir p) with
  | Some msg => (Raise (OSError msg), st)
  | None =>
      match dirs st !! p with
      | Some _ => (Ok tt, st)
      | None => (Ok tt, with_dirs (<[p := ∅]> (dirs st)) st)
      end
  end.

(** [with open(dir / file, "w") as f: <write>]: the directory must exist. *)
Definition write_file (flt : faults) (d f : string) : M unit := fun st =>
  match flt (OpenWrite d f) with
  | Some msg => (Raise (OSError msg), st)
  | None =>
      match dirs st !! d with
      | Some fs => (Ok tt, with_dirs (<[d := {[f]} ∪ fs]> (dirs st)) st)
      | None =>
          (Raise (OSError ("[Errno 2] No such file or directory: '"
                           +:+ d +:+ "/" +:+ f +:+ "'")), st)
      end
  end.

(** [if p.exists(): shutil.rmtree(p)]; a call that raises is taken to
    leave the directory in place. *)
Definition rmtree_if_exists (flt : faults) (p : string) : M unit := fun st =>
  match dirs st !! p with
  | Some _ =>
      match flt (Rmtree p) with
      | Some msg => (Raise (OSError msg), st)
      | None => (Ok tt, with_dirs (delete p (dirs st)) st)
      end
  | None => (Ok tt, st)
  end.

Definition UPLOAD_DIR : string := "uploads".
Definition RESULTS_DIR : string := "results".
Definition STATIC_DIR : string := "static".

(** [Path / name] for a plain name. *)
Definition path_join (d name : string) : string := d +:+ "/" +:+ name.

(** ** pathlib on a name the client chose *)

Definition slash : Ascii.ascii := Eval cbv in Ascii.ascii_of_nat 47.

(** [s.split("/")] *)
Fixpoint split_slash (s : string) : list string :=
  match s with
  | EmptyString => [EmptyString]
  | String c s' =>
      if Ascii.eqb c slash then EmptyString :: split_slash s'
      else match split_slash s' with
           | [] => [String c EmptyString]
           | piece :: pieces => String c piece :: pieces
           end
  end.

(** The parts pathlib keeps of a path string: the pieces between slashes
    that are neither empty nor ["."]; [".."] stays. *)
Definition path_parts (s : string) : list string :=
  filter (fun piece => negb (String.eqb piece "") && negb (String.eqb piece "."))
         (split_slash s).

(** ["/".join(parts)] *)
Fixpoint join_slash (parts : list string) : string :=
  match parts with
  | [] => ""
  | [part] => part
  | part :: rest => part +:+ "/" +:+ join_slash rest
  end.

Definition is_absolute (s : string) : bool :=
  match s with
  | String c _ => Ascii.eqb c slash
  | EmptyString => false
  end.

(** The root of an absolute POSIX path: ["//"] for exactly two leading
    slashes, ["/"] otherwise. *)
Definition posix_root (s : string) : string :=
  match s with
  | String _ (String c2 (String c3 _)) =>
      if Ascii.eqb c2 slash && negb (Ascii.eqb c3 slash) then "//" else "/"
  | String _ (String c2 EmptyString) => if Ascii.eqb c2 slash then "//" else "/"
  | _ => "/"
  end.

(** [str(Path(base) / name)], for a [base] that is relative and already
    in pathlib's form: an absolute [name] replaces [base], a name without
    parts leaves it, otherwise the parts of [name] follow it. *)
Definition path_div (base name : string) : string :=
  if is_absolute name then posix_root name +:+ join_slash (path_parts name)
  else match path_parts name with
       | [] => base
       | parts => base +:+ "/" +:+ join_slash parts
       end.


(** The path of the directory reached from the working directory by the
    names of [cur], innermost first. *)
Definition dir_key (cur : list string) : string := join_slash (rev cur).

(** Where [open] creates the file of a relative path: from the directory
    [cur] the parts are followed one by one, [".."] going up and a name
    going down into a directory that exists; the last part is the name of
    the file.  [None] when the walk leaves the directories of the model
    (above the working directory, or through a directory the model does
    not hold) or the path names no file. *)
Fixpoint resolve_from (d : gmap string (gset string)) (cur : list string)
    (parts : list string) : option (string * string) :=
  match parts with
  | [] => None
  | part :: rest =>
      match rest with
      | [] =>
          if String.eqb part ".." then None
          else match d !! dir_key cur with
               | Some _ => Some (dir_key cur, part)
               | None => None
               end
      | _ :: _ =>
          if String.eqb part ".." then
            match cur with
            | [] => None
            | _ :: up => resolve_from d up rest
            end
          else match d !! dir_key (part :: cur) with
               | Some _ => resolve_from d (part :: cur) rest
               | None => None
               end
      end
  end.

(** [with open(job_dir / filename, "wb") as buffer: shutil.copyfileobj(..)]
    in [upload_video], for the job directory of [uuid].  Whether the call
    raises is the oracle's; it raises, for one, when a directory of the
    path does not exist.  When it does not raise, the file is where the
    path leads: in the job directory for a plain name, elsewhere for a
    name with slashes; it is recorded if the model holds that directory. *)
Definition write_upload (flt : faults) (uuid filename : string) : M unit := fun st =>
  match flt (OpenWrite (path_join UPLOAD_DIR uuid) filename) with
  | Some msg => (Raise (OSError msg), st)
  | None =>
      match (if is_absolute filename then None
             else resolve_from (dirs st) [uuid; UPLOAD_DIR] (path_parts filename)) with
      | Some (d, name) =>
          (Ok tt, with_dirs (<[d := {[name]} ∪ default ∅ (dirs st !! d)]> (dirs st)) st)
      | None => (Ok tt, st)
      end
  end.

(** ** Store primitives *)

(** [jobs[job_id]] *)
Definition job_read (job_id : string) : M job := fun st =>
  match dict_get job_id (jobs st) with
  | Some j => (Ok j, st)
  | None => (Raise (KeyError job_id), st)
  end.

(** [jobs[job_id][field] = value]: the inner dict is changed in place. *)
Definition job_update (job_id : string) (f : job -> job) : M unit := fun st =>
  match dict_get job_id (jobs st) with
  | Some j => (Ok tt, with_jobs (dict_set job_id (f j) (jobs st)) st)
  | None => (Raise (KeyError job_id), st)
  end.

(** [job_id in jobs] *)
Definition job_mem (job_id : string) : M bool := fun st =>
  (Ok (dict_mem job_id (jobs st)), st).

(** ** Responses *)

Record upload_response : Type := mkUploadResponse {
  ur_job_id : string;
  ur_filename : string;
  ur_status : job_status;
  ur_category : option string
}.

Record analyze_response : Type := mkAnalyzeResponse {
  ar_job_id : string;
  ar_status : job_status;
  ar_category : option string
}.

(** The dict returned by [get_job_status]; ["results"] and ["error"] are
    keys that may be missing. *)
Record job_view : Type := mkView {
  v_id : string;
  v_status : job_status;
  v_filename : string;
  v_progress : Z;
  v_category : option string;
  v_results : option pyval;
  v_error : option string
}.

(** One entry of the list returned by [list_jobs]. *)
Definition view_with_results (r : pyval) (v : job_view) : job_view :=
  mkView (v_id v) (v_status v) (v_filename v) (v_progress v) (v_category v)
         (Some r) (v_error v).
Definition view_with_error (e : string) (v : job_view) : job_view :=
  mkView (v_id v) (v_status v) (v_filename v) (v_progress v) (v_category v)
         (v_results v) (Some e).

Definition status_eqb (a b : job_status) : bool :=
  match a, b with
  | uploaded, uploaded | processing, processing
  | completed, completed | failed, failed => true
  | _, _ => false
  end.

Record job_summary : Type := mkSummary {
  s_id : string;
  s_status : job_status;
  s_filename : string;
  s_created_at : Q;
  s_category : option string
}.

(** ** String helpers of the upload check *)

(** [str.lower] is a Python builtin driven by the Unicode tables; the
    handlers are stated over any such function. *)
Class PyStr : Type := str_lower : string -> string.

(** [s.endswith(suffix)] *)
Definition endswith (s suffix : string) : bool :=
  let n := String.length s in
  let m := String.length suffix in
  (m <=? n)%nat && String.eqb (String.substring (n - m) m s) suffix.

(** [s.endswith((a, b, ...))] *)
Definition endswith_any (s : string) (suffixes : list string) : bool :=
  existsb (endswith s) suffixes.

Definition VIDEO_EXTENSIONS : list string := [".mp4"; ".avi"; ".mov"; ".mkv"].

(** [category not in ["gold", "btc", "usdcad", None]] is the negation of: *)
Definition upload_category_ok (category : option string) : bool :=
  match category with
  | None => true
  | Some c => existsb (String.eqb c) ["gold"; "btc"; "usdcad"]
  end.

(** The retention window of [cleanup_old_jobs], in seconds. *)
Definition RETENTION : Q := inject_Z (24 * 60 * 60).

(** [x - y] on two doubles, given by their values: the exact difference
    rounded to the nearest double.  What the proofs use of the rounding
    is that it does not pass the double 86400.0: a difference that is at
    most 86400 is rounded to at most 86400. *)
Class PyFloat : Type := {
  float_sub : Q -> Q -> Q;
  float_sub_le x y : (x - y <= RETENTION)%Q -> (float_sub x y <= RETENTION)%Q
}.

(** ** The request handlers *)

Section Handlers.
Context {Lower : PyStr} {Float : PyFloat}.

(** [POST /api/upload].  [uuid] is the value of [str(uuid.uuid4())], 36
    hexadecimal digits and hyphens, and [now] the value of [time.time()];
    the file content is not stored in the model.  [filename] is whatever
    the client sent. *)
Definition upload_video (flt : faults) (filename : string)
    (category : option string) (uuid : string) (now : Q) : M upload_response :=
  if negb (endswith_any (str_lower filename) VIDEO_EXTENSIONS) then
    raise (HTTPException 400 "Invalid file format. Please upload a video file.")
  else if negb (upload_category_ok category) then
    raise (HTTPException 400 "Invalid category. Must be 'gold', 'btc', or 'usdcad'.")
  else
    let job_id := uuid in
    let job_dir := path_join UPLOAD_DIR job_id in
    mkdir_exist_ok flt job_dir ;;
    let file_path := path_div job_dir filename in
    write_upload flt job_id filename ;;
    modify (fun st => with_jobs
      (dict_set job_id
         (mkJob job_id uploaded filename file_path now PNone 0 category None None)
         (jobs st)) st) ;;
    mret (mkUploadResponse job_id filename uploaded category).

(** [POST /api/analyze/{job_id}].  The body has already been parsed
    into an [AnalysisParams] by the framework. *)
Definition analyze_video (flt : faults) (job_id : string)
    (params : AnalysisParams) : M analyze_response :=
  present ← job_mem job_id;
  if negb present then raise (HTTPException 404 "Job not found")
  else
    job_update job_id (set_status processing) ;;
    job_update job_id (set_params params) ;;
    job_update job_id (set_progress 0) ;;
    when (truthy_opt (p_category params))
         (job_update job_id (set_category (p_category params))) ;;
    let result_dir := path_join RESULTS_DIR job_id in
    mkdir_exist_ok flt result_dir ;;
    j ← job_read job_id;
    modify (fun st => with_tasks
      (tasks st ++ [mkTask job_id (j_file_path j) result_dir (fps params)
                           (j_category j) Running]) st) ;;
    j' ← job_read job_id;
    mret (mkAnalyzeResponse job_id processing (j_category j')).

(** [job["results"]["category"] = job["category"]], guarded by
    [isinstance(job["results"], dict)]. *)
Definition merge_category (c : option string) (j : job) : job :=
  match c, j_results j with
  | Some c, PDict d => set_results (PDict (dict_set "category" (PStr c) d)) j
  | _, _ => j
  end.

(** [GET /api/job/{job_id}] *)
Definition get_job_status (job_id : string) : M job_view :=
  present ← job_mem job_id;
  if negb present then raise (HTTPException 404 "Job not found")
  else
    job ← job_read job_id;
    let response :=
      mkView (j_id job) (j_status job) (j_filename job) (j_progress job)
             (j_category job) None None in
    response ←
      (if status_eqb (j_status job) completed && truthy (j_results job) then
         when (truthy_opt (j_category job))
              (job_update job_id (merge_category (j_category job))) ;;
         job' ← job_read job_id;
         mret (view_with_results (j_results job') response)
       else mret response);
    match j_error job with
    | Some e =>
        if status_eqb (j_status job) failed then mret (view_with_error e response)
        else mret response
    | None => mret response
    end.

Definition summary_of (j : job) : job_summary :=
  mkSummary (j_id j) (j_status j) (j_filename j) (j_created_at j) (j_category j).

(** [job_list.sort(key=lambda x: x["created_at"], reverse=True)].
    [list.sort] is stable, also with [reverse=True]: entries with equal
    keys keep their order.  That fixes the result, computed here by
    insertion from the right. *)
Fixpoint insert_newest_first (x : job_summary) (l : list job_summary)
    : list job_summary :=
  match l with
  | [] => [x]
  | y :: l' =>
      if Qle_bool (s_created_at y) (s_created_at x) then x :: y :: l'
      else y :: insert_newest_first x l'
  end.

Definition sort_newest_first (l : list job_summary) : list job_summary :=
  foldr insert_newest_first [] l.

(** [GET /api/jobs] *)
Definition list_jobs : M (list job_summary) :=
  st ← get_state;
  let job_list := map (fun kv => summary_of (snd kv)) (jobs st) in
  mret (sort_newest_first job_list).

(** [job.get("category") == category] *)
Definition category_is (category : string) (j : job) : bool :=
  match j_category j with
  | Some c => String.eqb c category
  | None => false
  end.

(** [GET /api/jobs/category/{category}] *)
Definition list_jobs_by_category (category : string) : M (list job_summary) :=
  if negb (existsb (String.eqb category) ["gold"; "btc"; "usdcad"; "all"]) then
    raise (HTTPException 400
      "Invalid category. Must be 'gold', 'btc', 'usdcad', or 'all'.")
  else
    st ← get_state;
    let job_list :=
      map (fun kv => summary_of (snd kv))
          (filter (fun kv => String.eqb category "all" || category_is category (snd kv))
                  (jobs st)) in
    mret (sort_newest_first job_list).

(** [DELETE /api/job/{job_id}] *)
Definition delete_job (flt : faults) (job_id : string) : M string :=
  present ← job_mem job_id;
  if negb present then raise (HTTPException 404 "Job not found")
  else
    modify (fun st => with_jobs (dict_del job_id (jobs st)) st) ;;
    rmtree_if_exists flt (path_join UPLOAD_DIR job_id) ;;
    rmtree_if_exists flt (path_join RESULTS_DIR job_id) ;;
    mret job_id.

(** [current_time - job["created_at"] > 24 * 60 * 60] *)
Definition expired (current_time : Q) (j : job) : bool :=
  negb (Qle_bool (float_sub current_time (j_created_at j)) (inject_Z (24 * 60 * 60))).

(** The body of the second loop of [cleanup_old_jobs], with the counter
    threaded through. *)
Fixpoint remove_jobs (flt : faults) (jobs_to_remove : list string)
    (removed_count : nat) : M nat :=
  match jobs_to_remove with
  | [] => mret removed_count
  | job_id :: rest =>
      present ← job_mem job_id;
      when present (modify (fun st => with_jobs (dict_del job_id (jobs st)) st)) ;;
      rmtree_if_exists flt (path_join UPLOAD_DIR job_id) ;;
      rmtree_if_exists flt (path_join RESULTS_DIR job_id) ;;
      remove_jobs flt rest (S removed_count)
  end.

(** [GET /api/cleanup]; [current_time] is the value of [time.time()]. *)
Definition cleanup_old_jobs (flt : faults) (current_time : Q) : M nat :=
  st ← get_state;
  let jobs_to_remove :=
    map fst (filter (fun kv => expired current_time (snd kv)) (jobs st)) in
  remove_jobs flt jobs_to_remove 0%nat.
End Handlers.

(** ** The background task *)

(** [update_progress(job_id, progress)] *)
Definition update_progress (job_id : string) (progress : Z) : M unit :=
  present ← job_mem job_id;
  when present (job_update job_id (set_progress progress)).

(** How the two calls into [chart_similarity] end, as far as
    [run_analysis] handles it: with the value of
    [prepare_results_for_json(results)], or with an [Exception] whose
    [str] is [msg].  An exception that is no [Exception] ([SystemExit],
    [KeyboardInterrupt]) is not an [outcome]: it passes the [except]
    block, and is the event [Abort] of the transition system below. *)
Inductive outcome : Type :=
| AnalysisReturns (serializable_results : pyval)
| AnalysisRaises (msg : string).

(** [serializable_results["category"] = category] *)
Definition setitem_category (c : string) (v : pyval) : M pyval :=
  match v with
  | PDict d => mret (PDict (dict_set "category" (PStr c) d))
  | PNone => raise (TypeError "'NoneType' object does not support item assignment")
  | PBool _ => raise (TypeError "'bool' object does not support item assignment")
  | PInt _ => raise (TypeError "'int' object does not support item assignment")
  | PStr _ => raise (TypeError "'str' object does not support item assignment")
  | PList _ => raise (TypeError "list indices must be integers or slices, not str")
  end.

(** [str(e)] *)
Definition exn_str (e : exn) : string :=
  match e with
  | HTTPException code detail => detail
  | KeyError k => "'" +:+ k +:+ "'"
  | TypeError msg => msg
  | OSError msg => msg
  | AnalysisError msg => msg
  end.

(** [run_analysis] from the point where the analysis library hands back
    control: the rest of the [try] block and the [except] block. *)
Definition run_analysis (flt : faults) (job_id output_dir : string)
    (category : option string) (o : outcome) : M unit :=
  try_except
    (serializable_results ←
       match o with
       | AnalysisReturns v => mret v
       | AnalysisRaises msg => raise (AnalysisError msg)
       end;
     serializable_results ←
       match category with
       | Some c =>
           if truthy_opt category then setitem_category c serializable_results
           else mret serializable_results
       | None => mret serializable_results
       end;
     write_file flt output_dir "results.json" ;;
     job_update job_id (set_status completed) ;;
     job_update job_id (set_results serializable_results) ;;
     job_update job_id (set_progress 100))
    (fun e =>
       job_update job_id (set_status failed) ;;
       job_update job_id (set_error (exn_str e))).

(** The [try] block of [run_analysis] up to and including the write of
    ["results.json"]: the value the three store writes are to record, or
    the exception raised on the way. *)
Definition run_analysis_prepare (flt : faults) (output_dir : string)
    (category : option string) (o : outcome) : M pyval :=
  serializable_results ←
    match o with
    | AnalysisReturns v => mret v
    | AnalysisRaises msg => raise (AnalysisError msg)
    end;
  serializable_results ←
    match category with
    | Some c =>
        if truthy_opt category then setitem_category c serializable_results
        else mret serializable_results
    | None => mret serializable_results
    end;
  write_file flt output_dir "results.json" ;;
  mret serializable_results.

(** ** The service as a transition system *)

Inductive event : Type :=
| Upload (filename : string) (category : option string) (uuid : string) (now : Q)
| Analyze (job_id : string) (params : AnalysisParams)
| GetJob (job_id : string)
| ListJobs
| ListJobsByCategory (category : string)
| DeleteJob (job_id : string)
| Cleanup (now : Q)
| Progress (k : nat) (progress : Z)
| Finish (k : nat) (o : outcome)
| Resume (k : nat)
| Abort (k : nat) (msg : string).

Inductive response : Type :=
| RUpload (r : upload_response)
| RAnalyze (r : analyze_response)
| RJob (v : job_view)
| RJobs (l : list job_summary)
| RDeleted (job_id : string)
| RRemoved (n : nat)
| RNone.

Definition set_task_state (s : task_state) (t : task) : task :=
  mkTask (t_job_id t) (t_file_path t) (t_output_dir t) (t_fps t) (t_category t) s.

(** Task [k] calls its progress callback; only a running task does. *)
Definition task_progress (k : nat) (progress : Z) : M unit := fun st =>
  match tasks st !! k with
  | Some t =>
      match t_state t with
      | Running => update_progress (t_job_id t) progress st
      | _ => (Ok tt, st)
      end
  | None => (Ok tt, st)
  end.

(** The analysis of task [k] ends with an outcome that [run_analysis]
    handles: the task runs the [try] block up to the write of
    ["results.json"] and stands before the first completion write, or,
    if something raised, before the first failure write. *)
Definition task_finish (flt : faults) (k : nat) (o : outcome) : M unit := fun st =>
  match tasks st !! k with
  | Some t =>
      match t_state t with
      | Running =>
          let '(r, st') :=
            run_analysis_prepare flt (t_output_dir t) (t_category t) o st in
          let s := match r with
                   | Ok sr => Completing sr WriteStatus
                   | Raise e => Failing (exn_str e) WriteFailed
                   end in
          (Ok tt, with_tasks (<[k := set_task_state s t]> (tasks st')) st')
      | _ => (Ok tt, st)
      end
  | None => (Ok tt, st)
  end.

Definition completion_update (sr : pyval) (w : completion_write) : job -> job :=
  match w with
  | WriteStatus => set_status completed
  | WriteResults => set_results sr
  | WriteProgress => set_progress 100
  end.

Definition after_completion_write (sr : pyval) (w : completion_write) : task_state :=
  match w with
  | WriteStatus => Completing sr WriteResults
  | WriteResults => Completing sr WriteProgress
  | WriteProgress => Returned
  end.

Definition failure_update (msg : string) (w : failure_write) : job -> job :=
  match w with
  | WriteFailed => set_status failed
  | WriteError => set_error msg
  end.

Definition after_failure_write (msg : string) (w : failure_write) : task_state :=
  match w with
  | WriteFailed => Failing msg WriteError
  | WriteError => Returned
  end.

(** Task [k] runs its next statement: one store write.  A [KeyError] in
    a completion write enters the [except] block; a [KeyError] in a
    failure write leaves [run_analysis] and ends the task.  (The [print]
    that ends the [except] block has no effect on the state.) *)
Definition task_resume (k : nat) : M unit := fun st =>
  match tasks st !! k with
  | Some t =>
      match t_state t with
      | Completing sr w =>
          let '(r, st') := job_update (t_job_id t) (completion_update sr w) st in
          let s := match r with
                   | Ok _ => after_completion_write sr w
                   | Raise e => Failing (exn_str e) WriteFailed
                   end in
          (Ok tt, with_tasks (<[k := set_task_state s t]> (tasks st')) st')
      | Failing msg w =>
          let '(r, st') := job_update (t_job_id t) (failure_update msg w) st in
          let s := match r with
                   | Ok _ => after_failure_write msg w
                   | Raise e => Crashed e
                   end in
          (Ok tt, with_tasks (<[k := set_task_state s t]> (tasks st')) st')
      | _ => (Ok tt, st)
      end
  | None => (Ok tt, st)
  end.

(** The analysis of task [k] is ended by an exception that is no
    [Exception]: it passes the [except] block, the store is not written. *)
Definition task_abort (k : nat) (msg : string) : M unit := fun st =>
  match tasks st !! k with
  | Some t =>
      match t_state t with
      | Running =>
          (Ok tt, with_tasks (<[k := set_task_state (Aborted msg) t]> (tasks st)) st)
      | _ => (Ok tt, st)
      end
  | None => (Ok tt, st)
  end.

Section Service.
Context {Lower : PyStr} {Float : PyFloat}.

Definition step (flt : faults) (ev : event) : M response :=
  match ev with
  | Upload filename category uuid now =>
      RUpload <$> upload_video flt filename category uuid now
  | Analyze job_id params => RAnalyze <$> analyze_video flt job_id params
  | GetJob job_id => RJob <$> get_job_status job_id
  | ListJobs => RJobs <$> list_jobs
  | ListJobsByCategory category => RJobs <$> list_jobs_by_category category
  | DeleteJob job_id => RDeleted <$> delete_job flt job_id
  | Cleanup now => RRemoved <$> cleanup_old_jobs flt now
  | Progress k p => task_progress k p ;; mret RNone
  | Finish k o => task_finish flt k o ;; mret RNone
  | Resume k => task_resume k ;; mret RNone
  | Abort k msg => task_abort k msg ;; mret RNone
  end.

(** A run of the service: each event comes with the file-system faults
    in force while it is served.  A failed request leaves the state it
    reached.  The events of a task and the requests come in any order:
    a request can be served between two writes of a task. *)
Fixpoint run (tr : list (faults * event)) (st : state) : state :=
  match tr with
  | [] => st
  | (flt, ev) :: tr' => run tr' (snd (step flt ev st))
  end.
End Service.

(** The state after start-up: the three roots and one result directory
    per category exist, there is no job. *)
Definition initial_state : state :=
  mkState []
    (list_to_map
       [(UPLOAD_DIR, ∅); (RESULTS_DIR, ∅); (STATIC_DIR, ∅);
        (path_join RESULTS_DIR "gold", ∅);
        (path_join RESULTS_DIR "btc", ∅);
        (path_join RESULTS_DIR "usdcad", ∅)])
    [].

(** [str.lower] restricted to ASCII letters, for running the model on
    ASCII file names. *)
Definition ascii_lower_char (c : Ascii.ascii) : Ascii.ascii :=
  let n := Ascii.nat_of_ascii c in
  if (65 <=? n)%nat && (n <=? 90)%nat then Ascii.ascii_of_nat (n + 32) else c.

Fixpoint ascii_lower (s : string) : string :=
  match s with
  | EmptyString => EmptyString
  | String c s' => String (ascii_lower_char c) (ascii_lower s')
  end.

(** ** Vocabulary of the statements *)

(** [a] is listed before [b]: it is at least as new. *)
Definition newer_or_same (a b : job_summary) : Prop :=
  (s_created_at b <= s_created_at a)%Q.

(** What [analyze_video] makes of the record of the job it starts. *)
Definition start_job (params : AnalysisParams) (j : job) : job :=
  let j' := set_progress 0 (set_params params (set_status processing j)) in
  if truthy_opt (p_category params) then set_category (p_category params) j' else j'.

(** Two records that agree on every key but ["results"]. *)
Definition same_but_results (j j' : job) : Prop :=
  j_id j' = j_id j /\ j_status j' = j_status j /\ j_filename j' = j_filename j /\
  j_file_path j' = j_file_path j /\ j_created_at j' = j_created_at j /\
  j_progress j' = j_progress j /\ j_category j' = j_category j /\
  j_params j' = j_params j /\ j_error j' = j_error j.

(** What the three writes at the end of the [try] block of
    [run_analysis] make of a record, and what the two writes of its
    [except] block make of it. *)
Definition complete_job (serializable_results : pyval) (j : job) : job :=
  set_progress 100 (set_results serializable_results (set_status completed j)).
Definition fail_job (msg : string) (j : job) : job :=
  set_error msg (set_status failed j).

(** The record [upload_video] stores. *)
Definition new_job (filename : string) (category : option string)
    (uuid : string) (now : Q) : job :=
  mkJob uuid uploaded filename (path_div (path_join UPLOAD_DIR uuid) filename)
        now PNone 0 category None None.

(** The ways an event rewrites a stored record, and the record an
    event adds. *)
Definition job_write (ev : event) (j j' : job) : Prop :=
  match ev with
  | Analyze _ params => j' = start_job params j
  | GetJob _ => j' = merge_category (j_category j) j
  | Progress _ p => j' = set_progress p j
  | Resume _ =>
      (exists sr w, j' = completion_update sr w j) \/
      (exists msg w, j' = failure_update msg w j)
  | _ => False
  end.

Definition job_created (ev : event) (j' : job) : Prop :=
  match ev with
  | Upload filename category uuid now => j' = new_job filename category uuid now
  | _ => False
  end.


(** Every value handed to the progress callback is a percentage. *)
Definition percentages_in_range (tr : list (faults * event)) : Prop :=
  Forall (fun fe => match snd fe with
                    | Progress _ p => 0 <= p <= 100
                    | _ => True
                    end) tr.

(** ** Sample runs, on ASCII file names *)

(** On integers below 2^53 the subtraction of doubles is exact; the
    timestamps of the sample runs are such integers. *)
Definition exact_sub : PyFloat :=
  {| float_sub := Qminus; float_sub_le := fun x y H => H |}.

(** The service with [ascii_lower] for [str.lower] and [exact_sub] for
    the subtraction. *)
Definition run_ascii (tr : list (faults * event)) (st : state) : state :=
  run (Lower := ascii_lower) (Float := exact_sub) tr st.

(** The analysis of task [k] ends and the task runs to its end with no
    request in between. *)
Definition finish_task (k : nat) (o : outcome) : list (faults * event) :=
  [(no_faults, Finish k o); (no_faults, Resume k); (no_faults, Resume k);
   (no_faults, Resume k)].

Definition upload_j1 : faults * event :=
  (no_faults, Upload "chart.mp4" (Some "gold") "j1" 1000).

Definition analyze_j1 : faults * event :=
  (no_faults, Analyze "j1" (mkParams 2 "green" None)).

Definition best_match : pyval := PDict [("bestMatch", PStr "frame_12")].

(** Upload, analysis started, progress 50 reported, analysis returned. *)
Definition st_completed : state :=
  run_ascii ([upload_j1; analyze_j1; (no_faults, Progress 0%nat 50)]
             ++ finish_task 0 (AnalysisReturns best_match))%list initial_state.

(** Only the upload. *)
Definition st_uploaded : state := run_ascii [upload_j1] initial_state.

(** A second [Analyze], which sets the category, arrives while the
    first analysis, started without one, is still running; then the
    first analysis returns. *)
Definition st_merged : state :=
  run_ascii ([(no_faults, Upload "chart.mp4" None "j1" 1000);
       (no_faults, Analyze "j1" (mkParams 1 "green" None));
       (no_faults, Analyze "j1" (mkParams 1 "green" (Some "gold")))]
      ++ finish_task 0 (AnalysisReturns best_match))%list initial_state.

(** The job is deleted while its analysis runs. *)
Definition st_deleted : state :=
  run_ascii [upload_j1; analyze_j1; (no_faults, DeleteJob "j1")] initial_state.

(** The job is deleted while its analysis runs; then the analysis
    returns. *)
Definition deleted_in_flight : list (faults * event) :=
  ([upload_j1; analyze_j1; (no_faults, DeleteJob "j1")]
   ++ finish_task 0 (AnalysisReturns best_match))%list.





(** The callback is handed 150; it is handed 100 before the analysis
    returns; a second analysis of the same job reports 50 after the
    first one has completed the job. *)
Definition st_progress_150 : state :=
  run_ascii [upload_j1; analyze_j1; (no_faults, Progress 0%nat 150)] initial_state.
Definition st_progress_100 : state :=
  run_ascii [upload_j1; analyze_j1; (no_faults, Progress 0%nat 100)] initial_state.
Definition st_completed_50 : state :=
  run_ascii ([upload_j1; analyze_j1; analyze_j1]
       ++ finish_task 0 (AnalysisReturns best_match)
       ++ [(no_faults, Progress 1%nat 50)])%list initial_state.

Definition scenario : list (faults * event) :=
  ([upload_j1; analyze_j1; (no_faults, Progress 0%nat 50)]
   ++ finish_task 0 (AnalysisReturns best_match))%list.

(** Two jobs of category gold, the second uploaded a day and a second
    after the first, and one of category btc in between. *)
Definition st_three_jobs : state :=
  run_ascii [upload_j1;
       (no_faults, Upload "later.mkv" (Some "gold") "j2" 87401);
       (no_faults, Upload "other.avi" (Some "btc") "j3" 50000)] initial_state.

(** ** Vocabulary of the further statements *)



(** No directory disappears and no file disappears from a directory. *)
Definition dirs_grow (d d' : gmap string (gset string)) : Prop :=
  forall p fs, d !! p = Some fs -> exists fs', d' !! p = Some fs' /\ fs ⊆ fs'.

(** Two records with the same id, file name, file path and creation
    time. *)
Definition same_identity (j j' : job) : Prop :=
  j_id j' = j_id j /\ j_filename j' = j_filename j /\
  j_file_path j' = j_file_path j /\ j_created_at j' = j_created_at j.

(** The changes of status an event can make in a record. *)
Definition status_step (ev : event) (s s' : job_status) : Prop :=
  s' = s \/
  match ev with
  | Analyze _ _ => s' = processing
  | Resume _ => s' = completed \/ s' = failed
  | _ => False
  end.

(** The events that neither add nor remove a record. *)
Definition keeps_ids (ev : event) : bool :=
  match ev with
  | Upload _ _ _ _ | DeleteJob _ | Cleanup _ => false
  | _ => true
  end.

(** Upload, then analysis started: the task is running. *)
Definition st_started : state := run_ascii [upload_j1; analyze_j1] initial_state.

(** Fault oracles: every write fails with a full disk; every
    [shutil.rmtree] is refused; every [mkdir] is refused. *)
Definition disk_full : faults := fun op =>
  match op with
  | OpenWrite _ _ => Some "[Errno 28] No space left on device"
  | _ => None
  end.
Definition rmtree_refused : faults := fun op =>
  match op with
  | Rmtree _ => Some "[Errno 13] Permission denied"
  | _ => None
  end.
Definition mkdir_refused : faults := fun op =>
  match op with
  | Mkdir _ => Some "[Errno 13] Permission denied"
  | _ => None
  end.

(** * Properties *)

(** ** Dicts *)

Section DictFacts.
Context {V : Type}.
Implicit Types (k : string) (v : V) (d : list (string * V)).

Lemma dict_mem_get k d : dict_mem k d = true <-> is_Some (dict_get k d).
Proof.
  unfold dict_mem. destruct (dict_get k d); split; intros Hx; eauto.
  - discriminate.
  - destruct Hx; discriminate.
Qed.

Lemma dict_mem_false k d : dict_mem k d = false <-> dict_get k d = None.
Proof. unfold dict_mem. destruct (dict_get k d); split; congruence. Qed.

Lemma dict_get_set_eq k v d : dict_get k (dict_set k v d) = Some v.
Proof.
  induction d as [|[k' v'] d IH]; simpl.
  - by rewrite String.eqb_refl.
  - destruct (String.eqb k' k) eqn:E; simpl.
    + by rewrite String.eqb_refl.
    + by rewrite E.
Qed.

Lemma dict_get_set_ne k k' v d :
  k <> k' -> dict_get k' (dict_set k v d) = dict_get k' d.
Proof.
  intros Hne. induction d as [|[k0 v0] d IH]; simpl.
  - destruct (String.eqb k k') eqn:E; [|done].
    apply String.eqb_eq in E. congruence.
  - destruct (String.eqb k0 k) eqn:E; simpl.
    + apply String.eqb_eq in E. subst k0.
      destruct (String.eqb k k') eqn:E'; [|done].
      apply String.eqb_eq in E'. congruence.
    + by rewrite IH.
Qed.

Lemma dict_set_same k v d : dict_get k d = Some v -> dict_set k v d = d.
Proof.
  induction d as [|[k0 v0] d IH]; simpl; [done|].
  destruct (String.eqb k0 k) eqn:E.
  - apply String.eqb_eq in E. congruence.
  - intros Hg. by rewrite IH.
Qed.

Lemma dict_set_set k v1 v2 d : dict_set k v2 (dict_set k v1 d) = dict_set k v2 d.
Proof.
  induction d as [|[k0 v0] d IH]; simpl.
  - by rewrite String.eqb_refl.
  - destruct (String.eqb k0 k) eqn:E; simpl.
    + by rewrite String.eqb_refl.
    + by rewrite E, IH.
Qed.

Lemma dict_set_keys k v d :
  is_Some (dict_get k d) -> map fst (dict_set k v d) = map fst d.
Proof.
  induction d as [|[k0 v0] d IH]; simpl.
  - intros [? ?]; discriminate.
  - destruct (String.eqb k0 k) eqn:E; simpl.
    + apply String.eqb_eq in E. by subst.
    + intros Hs. by rewrite IH.
Qed.

Lemma dict_get_del_eq k d : dict_get k (dict_del k d) = None.
Proof.
  unfold dict_del. induction d as [|[k0 v0] d IH]; [done|].
  rewrite filter_cons. simpl. destruct (String.eqb k0 k) eqn:E; simpl; [done|].
  by rewrite E.
Qed.

Lemma dict_get_del_ne k k' d : k <> k' -> dict_get k' (dict_del k d) = dict_get k' d.
Proof.
  intros Hne. unfold dict_del. induction d as [|[k0 v0] d IH]; [done|].
  rewrite filter_cons. simpl. destruct (String.eqb k0 k) eqn:E; simpl.
  - apply String.eqb_eq in E. subst k0.
    destruct (String.eqb k k') eqn:E'; [|done].
    apply String.eqb_eq in E'. congruence.
  - by rewrite IH.
Qed.

Lemma dict_del_absent k d : dict_get k d = None -> dict_del k d = d.
Proof.
  unfold dict_del. induction d as [|[k0 v0] d IH]; [done|].
  rewrite filter_cons. simpl. destruct (String.eqb k0 k) eqn:E; simpl; [done|].
  intros Hg. by rewrite IH.
Qed.

Lemma dict_get_In k v d : dict_get k d = Some v -> In (k, v) d.
Proof.
  induction d as [|[k0 v0] d IH]; simpl; [done|].
  destruct (String.eqb k0 k) eqn:E.
  - apply String.eqb_eq in E. intros [= ->]. left. by subst.
  - intros Hg. right. by apply IH.
Qed.

Lemma dict_In_get k v d : dict_wf d -> In (k, v) d -> dict_get k d = Some v.
Proof.
  unfold dict_wf. induction d as [|[k0 v0] d IH]; simpl; [done|].
  intros Hnd [Hin|Hin].
  - injection Hin as -> ->. by rewrite String.eqb_refl.
  - apply NoDup_cons in Hnd as [Hnot Hnd].
    destruct (String.eqb k0 k) eqn:E.
    + apply String.eqb_eq in E. subst k0. exfalso. apply Hnot.
      apply list_elem_of_In, in_map_iff. by exists (k, v).
    + by apply IH.
Qed.
End DictFacts.

(** ** Unfolding the handler monad *)

Ltac munfold :=
  unfold when, try_except, job_mem, job_read, job_update, raise, get_state,
    modify in *;
  unfold mbind, M_bind, mret, M_ret, fmap, M_fmap in *.

Lemma rmtree_if_exists_jobs flt p st :
  jobs (snd (rmtree_if_exists flt p st)) = jobs st.
Proof.
  unfold rmtree_if_exists.
  destruct (dirs st !! p); [destruct (flt (Rmtree p))|]; reflexivity.
Qed.


Lemma rmtree_if_exists_ok flt p st :
  flt (Rmtree p) = None ->
  rmtree_if_exists flt p st = (Ok tt, with_dirs (delete p (dirs st)) st).
Proof.
  intros Hf. unfold rmtree_if_exists. rewrite Hf.
  destruct (dirs st !! p) eqn:E; [done|].
  rewrite delete_id by done. by destruct st.
Qed.

(** ** Deletion *)

(** Whatever the file system does, the store after [delete_job] is the
    store before it without the job's key. *)
Lemma delete_job_jobs flt job_id st :
  jobs (snd (delete_job flt job_id st)) = dict_del job_id (jobs st).
Proof.
  unfold delete_job. munfold.
  destruct (dict_mem job_id (jobs st)) eqn:Hm; simpl.
  - pose proof (rmtree_if_exists_jobs flt (path_join UPLOAD_DIR job_id)
                  (with_jobs (dict_del job_id (jobs st)) st)) as H1.
    destruct (rmtree_if_exists flt (path_join UPLOAD_DIR job_id) _)
      as [[[]|e] st1]; simpl in *; [|done].
    pose proof (rmtree_if_exists_jobs flt (path_join RESULTS_DIR job_id) st1) as H2.
    destruct (rmtree_if_exists flt (path_join RESULTS_DIR job_id) st1)
      as [[[]|e] st2]; simpl in *; congruence.
  - apply dict_mem_false in Hm. by rewrite dict_del_absent.
Qed.

Lemma delete_job_absent flt job_id st :
  dict_get job_id (jobs st) = None ->
  delete_job flt job_id st = (Raise (HTTPException 404 "Job not found"), st).
Proof.
  intros Hg. apply dict_mem_false in Hg.
  unfold delete_job. munfold. by rewrite Hg.
Qed.

Lemma delete_job_present flt job_id st :
  is_Some (dict_get job_id (jobs st)) ->
  flt (Rmtree (path_join UPLOAD_DIR job_id)) = None ->
  flt (Rmtree (path_join RESULTS_DIR job_id)) = None ->
  delete_job flt job_id st =
    (Ok job_id,
     mkState (dict_del job_id (jobs st))
             (delete (path_join RESULTS_DIR job_id)
                     (delete (path_join UPLOAD_DIR job_id) (dirs st)))
             (tasks st)).
Proof.
  intros Hs Hu Hr. apply dict_mem_get in Hs.
  unfold delete_job. munfold. rewrite Hs. simpl.
  rewrite (rmtree_if_exists_ok _ _ _ Hu), (rmtree_if_exists_ok _ _ _ Hr).
  reflexivity.
Qed.

(** C10: [delete_job] pops the record before it touches the file system:
    for every fault oracle, so also when [shutil.rmtree] raises on the
    upload or on the result directory, the store left by the call is the
    old store without the key, and the key is not in it. *)
Theorem delete_job_pops_before_files (flt : faults) (job_id : string) (st : state) :
  jobs (snd (delete_job flt job_id st)) = dict_del job_id (jobs st) /\
  dict_get job_id (jobs (snd (delete_job flt job_id st))) = None.
Proof.
  rewrite delete_job_jobs. split; [done|]. apply dict_get_del_eq.
Qed.

(** C9: on a present id, with [shutil.rmtree] not raising, [delete_job]
    returns the confirmation, the record is gone and every other record
    is as before, and a second call is answered 404 without any change;
    on an absent id the call is answered 404 without any change. *)
Theorem delete_job_once_then_not_found (flt : faults) (job_id : string) (st : state) :
  flt (Rmtree (path_join UPLOAD_DIR job_id)) = None ->
  flt (Rmtree (path_join RESULTS_DIR job_id)) = None ->
  let st' := snd (delete_job flt job_id st) in
  match dict_get job_id (jobs st) with
  | Some _ =>
      fst (delete_job flt job_id st) = Ok job_id /\
      dict_get job_id (jobs st') = None /\
      (forall k, k <> job_id -> dict_get k (jobs st') = dict_get k (jobs st)) /\
      delete_job flt job_id st' = (Raise (HTTPException 404 "Job not found"), st')
  | None =>
      delete_job flt job_id st = (Raise (HTTPException 404 "Job not found"), st)
  end.
Proof.
  intros Hu Hr st'.
  destruct (dict_get job_id (jobs st)) as [j|] eqn:Hg.
  - assert (Hj : jobs st' = dict_del job_id (jobs st)) by apply delete_job_jobs.
    split; [|split; [|split]].
    + rewrite delete_job_present; eauto.
    + rewrite Hj. apply dict_get_del_eq.
    + intros k Hk. rewrite Hj. by apply dict_get_del_ne.
    + apply delete_job_absent. rewrite Hj. apply dict_get_del_eq.
  - by apply delete_job_absent.
Qed.

(** Witness of [delete_job_once_then_not_found]: the job of the sample
    run is deleted, a second deletion is answered 404. *)
Lemma delete_job_once_then_not_found_witness :
  fst (delete_job no_faults "j1" st_completed) = Ok "j1" /\
  fst (delete_job no_faults "j1" (snd (delete_job no_faults "j1" st_completed)))
    = Raise (HTTPException 404 "Job not found").
Proof.
  pose proof (delete_job_once_then_not_found no_faults "j1" st_completed
                eq_refl eq_refl) as Hd.
  cbv zeta in Hd.
  destruct (dict_get "j1" (jobs st_completed)) as [j|] eqn:Hg.
  - destruct Hd as (H1 & _ & _ & H4). split; [exact H1|]. by rewrite H4.
  - vm_compute in Hg. discriminate Hg.
Defined.

(** ** pathlib on a plain name *)








Lemma resolve_from_Some d cur parts p name :
  resolve_from d cur parts = Some (p, name) -> is_Some (d !! p).
Proof.
  revert cur. induction parts as [|part rest IH]; intros cur; [done|].
  simpl. destruct rest as [|part' rest'].
  - destruct (String.eqb part ".."); [done|].
    destruct (d !! dir_key cur) eqn:E; [|done]. intros [= <- _]. by rewrite E.
  - destruct (String.eqb part "..").
    + destruct cur; [done|]. apply IH.
    + destruct (d !! dir_key (part :: cur)); [|done]. apply IH.
Qed.

(** What [write_upload] does to the state: nothing when it raises; when
    it does not, at most one file more in one directory that exists. *)
Lemma write_upload_state flt uuid filename st :
  (exists msg, flt (OpenWrite (path_join UPLOAD_DIR uuid) filename) = Some msg /\
               write_upload flt uuid filename st = (Raise (OSError msg), st)) \/
  flt (OpenWrite (path_join UPLOAD_DIR uuid) filename) = None /\
  (write_upload flt uuid filename st = (Ok tt, st) \/
   exists p name fs,
     dirs st !! p = Some fs /\
     write_upload flt uuid filename st
       = (Ok tt, with_dirs (<[p := {[name]} ∪ fs]> (dirs st)) st)).
Proof.
  unfold write_upload.
  destruct (flt (OpenWrite (path_join UPLOAD_DIR uuid) filename)) as [msg|];
    [left; eauto|right; split; [done|]].
  destruct (if is_absolute filename then None else _) as [[p name]|] eqn:E; [|by left].
  right. destruct (is_absolute filename); [done|].
  destruct (resolve_from_Some _ _ _ _ _ E) as [fs Hfs].
  exists p, name, fs. by rewrite Hfs.
Qed.


(** ** Upload *)

Section UploadFacts.
Context {Lower : PyStr}.

(** C6: an upload whose lower-cased file name ends with none of the
    video extensions, or whose supplied category is not one of gold,
    btc, usdcad, is answered 400 and the state (store, directories,
    tasks) is the one before the call. *)
Theorem upload_video_rejects (flt : faults) (filename : string)
    (category : option string) (uuid : string) (now : Q) (st : state) :
  endswith_any (str_lower filename) VIDEO_EXTENSIONS = false \/
  (exists c, category = Some c /\ ~ In c ["gold"; "btc"; "usdcad"]) ->
  exists detail,
    upload_video flt filename category uuid now st
      = (Raise (HTTPException 400 detail), st).
Proof.
  intros Hbad. unfold upload_video.
  destruct (endswith_any (str_lower filename) VIDEO_EXTENSIONS) eqn:Hext; simpl.
  - destruct Hbad as [Hbad|(c & -> & Hc)]; [discriminate|].
    assert (Hok : upload_category_ok (Some c) = false).
    { simpl. apply not_true_is_false. intros Ht. apply Hc.
      apply orb_prop in Ht as [Ht|Ht]; [apply String.eqb_eq in Ht; subst; simpl; tauto|].
      apply orb_prop in Ht as [Ht|Ht]; [apply String.eqb_eq in Ht; subst; simpl; tauto|].
      apply orb_prop in Ht as [Ht|Ht]; [apply String.eqb_eq in Ht; subst; simpl; tauto|].
      discriminate. }
    rewrite Hok. simpl. eauto.
  - eauto.
Qed.
End UploadFacts.

(** Witness of [upload_video_rejects]: the file name of the scenario of
    the specification. *)
Lemma upload_video_rejects_witness :
  exists detail,
    upload_video (Lower := ascii_lower) no_faults "x.txt" None "j2" 1000 initial_state
      = (Raise (HTTPException 400 detail), initial_state).
Proof.
  apply (upload_video_rejects (Lower := ascii_lower) no_faults "x.txt" None "j2" 1000
           initial_state).
  left. reflexivity.
Defined.

(** ** Listing *)

Lemma insert_newest_first_perm x l : insert_newest_first x l ≡ₚ x :: l.
Proof.
  induction l as [|y l IH]; simpl; [done|].
  destruct (Qle_bool (s_created_at y) (s_created_at x)); [done|].
  rewrite IH. apply perm_swap.
Qed.

Lemma insert_newest_first_sorted x l :
  StronglySorted newer_or_same l ->
  StronglySorted newer_or_same (insert_newest_first x l).
Proof.
  induction 1 as [|y l Hs IH Hall]; simpl.
  - repeat constructor.
  - destruct (Qle_bool (s_created_at y) (s_created_at x)) eqn:E.
    + apply Qle_bool_iff in E. constructor; [by constructor|].
      constructor; [exact E|].
      eapply Forall_impl; [exact Hall|]. intros z Hz.
      unfold newer_or_same in *. by eapply Qle_trans.
    + assert (Hlt : (s_created_at x <= s_created_at y)%Q).
      { destruct (Qlt_le_dec (s_created_at x) (s_created_at y)) as [Hlt|Hle].
        - by apply Qlt_le_weak.
        - apply Qle_bool_iff in Hle. congruence. }
      constructor; [exact IH|].
      rewrite insert_newest_first_perm. by constructor.
Qed.

Lemma sort_newest_first_perm l : sort_newest_first l ≡ₚ l.
Proof.
  induction l as [|x l IH]; simpl; [done|].
  rewrite insert_newest_first_perm. by rewrite IH.
Qed.

Lemma sort_newest_first_sorted l : StronglySorted newer_or_same (sort_newest_first l).
Proof.
  induction l as [|x l IH]; simpl; [constructor|].
  by apply insert_newest_first_sorted.
Qed.

(** With creation times that differ pairwise the order is strict. *)
Lemma sorted_distinct_strict l :
  StronglySorted newer_or_same l ->
  StronglySorted (fun a b => ~ (s_created_at a == s_created_at b)%Q) l ->
  StronglySorted (fun a b => (s_created_at b < s_created_at a)%Q) l.
Proof.
  induction 1 as [|x l Hs IH Hall]; intros Hd; [constructor|].
  apply StronglySorted_inv in Hd as [Hd Hne].
  constructor; [by apply IH|].
  rewrite Forall_forall in *. intros y Hy.
  specialize (Hall y Hy). specialize (Hne y Hy). unfold newer_or_same in Hall.
  apply Qle_lteq in Hall as [Hlt|Heq]; [done|].
  exfalso. apply Hne. by symmetry.
Qed.

(** C8: the list returned by [list_jobs], and by [list_jobs_by_category]
    for each of gold, btc, usdcad and all, holds exactly the summaries
    of the (selected) jobs, every entry at least as new as all entries
    after it; ["all"] selects every job. *)
Theorem list_jobs_newest_first (category : string) (st : state) :
  In category ["gold"; "btc"; "usdcad"; "all"] ->
  (exists l, list_jobs st = (Ok l, st) /\
     StronglySorted newer_or_same l /\
     l ≡ₚ map (fun kv => summary_of (snd kv)) (jobs st)) /\
  (exists l, list_jobs_by_category category st = (Ok l, st) /\
     StronglySorted newer_or_same l /\
     l ≡ₚ map (fun kv => summary_of (snd kv))
            (filter (fun kv => String.eqb category "all" || category_is category (snd kv))
                    (jobs st))) /\
  list_jobs_by_category "all" st = list_jobs st.
Proof.
  intros Hc. split; [|split].
  - eexists. split; [reflexivity|].
    split; [apply sort_newest_first_sorted|apply sort_newest_first_perm].
  - assert (Hrec : existsb (String.eqb category) ["gold"; "btc"; "usdcad"; "all"] = true).
    { apply existsb_exists. exists category. split; [done|apply String.eqb_refl]. }
    unfold list_jobs_by_category. rewrite Hrec. simpl negb. cbv iota.
    eexists. split; [reflexivity|].
    split; [apply sort_newest_first_sorted|apply sort_newest_first_perm].
  - unfold list_jobs_by_category, list_jobs. munfold. simpl.
    do 3 f_equal. induction (jobs st) as [|kv d IH]; [done|].
    rewrite filter_cons. simpl. by rewrite IH.
Qed.

(** Witness of [list_jobs_newest_first], on three jobs uploaded at
    different times. *)
Lemma list_jobs_newest_first_witness :
  exists l,
    list_jobs_by_category "gold" st_three_jobs = (Ok l, st_three_jobs) /\
    StronglySorted newer_or_same l.
Proof.
  destruct (list_jobs_newest_first "gold" st_three_jobs) as (_ & (l & Hl & Hs & _) & _).
  - simpl. tauto.
  - exists l. split; [exact Hl|exact Hs].
Defined.

(** ** Cleanup *)

Section CleanupFacts.
Context {Float : PyFloat}.

Lemma expired_iff current_time j :
  expired current_time j = true
  <-> (RETENTION < float_sub current_time (j_created_at j))%Q.
Proof.
  unfold expired, RETENTION. rewrite negb_true_iff. split.
  - intros Hb. apply Qnot_le_lt. intros Hle. apply Qle_bool_iff in Hle. congruence.
  - intros Hlt. apply not_true_is_false. intros Hb. apply Qle_bool_iff in Hb.
    by apply Qlt_not_le in Hlt.
Qed.

(** The rounding of the subtraction never makes a job look older than
    the window when it is not. *)
Lemma expired_exact current_time j :
  expired current_time j = true -> (RETENTION < current_time - j_created_at j)%Q.
Proof.
  intros He. apply expired_iff in He. apply Qnot_le_lt. intros Hle.
  apply float_sub_le in Hle. by apply Qlt_not_le in He.
Qed.

Lemma filter_ext_elem {A} (P Q : A -> Prop) `{!forall x, Decision (P x)}
    `{!forall x, Decision (Q x)} (l : list A) :
  (forall x, x ∈ l -> (P x <-> Q x)) -> filter P l = filter Q l.
Proof.
  induction l as [|x l IH]; intros Hpq; [done|].
  rewrite !filter_cons.
  assert (Hx : P x <-> Q x) by (apply Hpq; left).
  rewrite IH by (intros y Hy; apply Hpq; by right).
  destruct (decide (P x)), (decide (Q x)); tauto.
Qed.

Lemma filter_complement_nil {A} (P : A -> bool) (l : list A) :
  filter (fun x => P x) (filter (fun x => negb (P x)) l) = [].
Proof.
  induction l as [|x l IH]; [done|].
  rewrite filter_cons. destruct (P x) eqn:E; simpl; [done|].
  rewrite filter_cons, E. simpl. done.
Qed.

Lemma length_filter_complement {A} (P : A -> bool) (l : list A) :
  length l
  = (length (filter (fun x => P x) l) + length (filter (fun x => negb (P x)) l))%nat.
Proof.
  induction l as [|x l IH]; [done|].
  rewrite !filter_cons. destruct (P x); simpl; lia.
Qed.

Lemma foldl_dict_del {V} (ks : list string) (d : list (string * V)) :
  foldl (fun d k => dict_del k d) d ks = filter (fun kv => kv.1 ∉ ks) d.
Proof.
  revert d. induction ks as [|k ks IH]; intros d; simpl.
  - symmetry. induction d as [|kv d IHd]; [done|].
    rewrite filter_cons_True by apply not_elem_of_nil. by rewrite IHd.
  - rewrite IH. unfold dict_del. rewrite list_filter_filter.
    apply list_filter_iff. intros [k' v]; simpl. rewrite not_elem_of_cons.
    destruct (String.eqb k' k) eqn:E; simpl.
    + apply String.eqb_eq in E. subst. tauto.
    + apply String.eqb_neq in E. tauto.
Qed.

Lemma remove_jobs_ok flt :
  (forall p, flt (Rmtree p) = None) ->
  forall ks n st,
    exists st',
      remove_jobs flt ks n st = (Ok (n + length ks)%nat, st') /\
      jobs st' = foldl (fun d k => dict_del k d) (jobs st) ks /\
      tasks st' = tasks st.
Proof.
  intros Hf. induction ks as [|k ks IH]; intros n st; simpl.
  - exists st. by rewrite Nat.add_0_r.
  - munfold.
    assert (Hdel : forall st1, jobs st1 = dict_del k (jobs st) -> tasks st1 = tasks st ->
      exists st', remove_jobs flt ks (S n) st1 = (Ok (n + S (length ks))%nat, st') /\
        jobs st' = foldl (fun d k => dict_del k d) (dict_del k (jobs st)) ks /\
        tasks st' = tasks st).
    { intros st1 Hj1 Ht1. destruct (IH (S n) st1) as (st' & Hr & Hj & Ht).
      exists st'. rewrite Hr. split; [f_equal; f_equal; lia|].
      by rewrite Hj, Ht, Hj1, Ht1. }
    destruct (dict_mem k (jobs st)) eqn:Hm; simpl;
      rewrite !rmtree_if_exists_ok by apply Hf; simpl; apply Hdel; try done.
    apply dict_mem_false in Hm. simpl. by rewrite dict_del_absent.
Qed.

Lemma expired_keys_filter current_time (d : list (string * job)) :
  dict_wf d ->
  filter (fun kv => kv.1 ∉ map fst (filter (fun kv => expired current_time kv.2) d)) d
  = filter (fun kv => negb (expired current_time kv.2)) d.
Proof.
  intros Hwf. apply filter_ext_elem. intros [k j] Hin; simpl.
  apply list_elem_of_In in Hin.
  destruct (expired current_time j) eqn:E; simpl; split; try done.
  - intros Hn. apply Hn. apply list_elem_of_In, in_map_iff. exists (k, j).
    split; [done|]. apply list_elem_of_In, list_elem_of_filter.
    split; [simpl; by rewrite E|by apply list_elem_of_In].
  - intros _ Hk. apply list_elem_of_In, in_map_iff in Hk as ([k' j'] & Hfst & Hin').
    simpl in Hfst. subst k'.
    apply list_elem_of_In, list_elem_of_filter in Hin' as [He Hin'].
    apply list_elem_of_In in Hin'. simpl in He.
    apply (dict_In_get _ _ _ Hwf) in Hin. apply (dict_In_get _ _ _ Hwf) in Hin'.
    assert (j' = j) by congruence. subst. by rewrite E in He.
Qed.

Lemma dict_get_filter_values {V} (P : V -> bool) k (d : list (string * V)) :
  dict_wf d ->
  dict_get k (filter (fun kv => P kv.2) d)
  = match dict_get k d with
    | Some v => if P v then Some v else None
    | None => None
    end.
Proof.
  unfold dict_wf. induction d as [|[k0 v0] d IH]; intros Hwf; [done|].
  simpl in Hwf. apply NoDup_cons in Hwf as [Hnot Hwf].
  rewrite filter_cons. simpl.
  destruct (String.eqb k0 k) eqn:E.
  - apply String.eqb_eq in E. subst k0.
    destruct (P v0) eqn:EP; simpl.
    + by rewrite String.eqb_refl.
    + rewrite IH by done.
      destruct (dict_get k d) as [v|] eqn:Hg; [|done].
      exfalso. apply Hnot. apply dict_get_In in Hg.
      apply list_elem_of_In, in_map_iff. by exists (k, v).
  - destruct (P v0); simpl; [rewrite E|]; by apply IH.
Qed.

(** C7: on a store that is a dict, at time [current_time] and with
    [shutil.rmtree] not raising, [cleanup_old_jobs] answers with the
    number of jobs whose age exceeds 24 hours, the age being the
    difference [current_time - created_at] as the program computes it,
    on doubles ([float_sub]); the store it leaves holds the other jobs,
    in their order, and nothing else, so that the number answered is the
    number of records that went, and a second call at the same time
    removes none and changes nothing. *)
Theorem cleanup_old_jobs_exact (flt : faults) (current_time : Q) (st : state) :
  (forall p, flt (Rmtree p) = None) ->
  dict_wf (jobs st) ->
  exists st',
    cleanup_old_jobs flt current_time st
      = (Ok (length (filter (fun kv => expired current_time kv.2) (jobs st))), st') /\
    jobs st' = filter (fun kv => negb (expired current_time kv.2)) (jobs st) /\
    length (jobs st)
      = (length (filter (fun kv => expired current_time kv.2) (jobs st))
         + length (jobs st'))%nat /\
    (forall k j, dict_get k (jobs st) = Some j ->
       (RETENTION < float_sub current_time (j_created_at j))%Q ->
       dict_get k (jobs st') = None) /\
    (forall k j, dict_get k (jobs st) = Some j ->
       ~ (RETENTION < float_sub current_time (j_created_at j))%Q ->
       dict_get k (jobs st') = Some j) /\
    (forall k, dict_get k (jobs st) = None -> dict_get k (jobs st') = None) /\
    cleanup_old_jobs flt current_time st' = (Ok 0%nat, st').
Proof.
  intros Hf Hwf. unfold cleanup_old_jobs. munfold.
  destruct (remove_jobs_ok flt Hf
              (map fst (filter (fun kv => expired current_time kv.2) (jobs st))) 0%nat st)
    as (st' & Hr & Hj & _).
  rewrite foldl_dict_del, expired_keys_filter in Hj by done.
  exists st'. rewrite Hr, length_map. split; [done|]. split; [done|].
  split.
  { rewrite Hj.
    apply (length_filter_complement (fun kv => expired current_time kv.2)). }
  assert (Hget : forall k, dict_get k (jobs st')
            = match dict_get k (jobs st) with
              | Some v => if negb (expired current_time v) then Some v else None
              | None => None
              end).
  { intros k. rewrite Hj.
    apply (dict_get_filter_values (fun j => negb (expired current_time j))), Hwf. }
  split; [|split; [|split]].
  - intros k j Hg Hlt. rewrite Hget, Hg.
    apply expired_iff in Hlt. by rewrite Hlt.
  - intros k j Hg Hlt. rewrite Hget, Hg.
    destruct (expired current_time j) eqn:E; [|done].
    apply expired_iff in E. contradiction.
  - intros k Hg. by rewrite Hget, Hg.
  - assert (Hnone : filter (fun kv => expired current_time kv.2) (jobs st') = []).
    { rewrite Hj. apply filter_complement_nil. }
    rewrite Hnone. reflexivity.
Qed.
End CleanupFacts.

(** Witness of [cleanup_old_jobs_exact]: of three jobs, the one uploaded
    more than a day before the sweep goes. *)
Lemma cleanup_old_jobs_exact_witness :
  exists st',
    cleanup_old_jobs (Float := exact_sub) no_faults 87402 st_three_jobs
      = (Ok 1%nat, st') /\
    cleanup_old_jobs (Float := exact_sub) no_faults 87402 st' = (Ok 0%nat, st').
Proof.
  destruct (cleanup_old_jobs_exact (Float := exact_sub) no_faults 87402 st_three_jobs)
    as (st' & H1 & _ & _ & _ & _ & _ & H6).
  - reflexivity.
  - unfold dict_wf. apply (bool_decide_unpack _). vm_compute. exact I.
  - exists st'. split; [|exact H6]. rewrite H1. reflexivity.
Defined.

(** ** Starting an analysis *)

Lemma mbind_run {A B} (m : M A) (f : A -> M B) st :
  (m ≫= f) st
  = match m st with
    | (Ok a, st') => f a st'
    | (Raise e, st') => (Raise e, st')
    end.
Proof. reflexivity. Qed.

Lemma job_update_ok job_id f st j :
  dict_get job_id (jobs st) = Some j ->
  job_update job_id f st = (Ok tt, with_jobs (dict_set job_id (f j) (jobs st)) st).
Proof. intros Hg. unfold job_update. by rewrite Hg. Qed.

Lemma job_update_absent job_id f st :
  dict_get job_id (jobs st) = None ->
  job_update job_id f st = (Raise (KeyError job_id), st).
Proof. intros Hg. unfold job_update. by rewrite Hg. Qed.

Lemma analyze_video_absent flt job_id params st :
  dict_get job_id (jobs st) = None ->
  analyze_video flt job_id params st
    = (Raise (HTTPException 404 "Job not found"), st).
Proof.
  intros Hg. apply dict_mem_false in Hg.
  unfold analyze_video. munfold. by rewrite Hg.
Qed.

Lemma analyze_video_present flt job_id params st j :
  dict_get job_id (jobs st) = Some j ->
  flt (Mkdir (path_join RESULTS_DIR job_id)) = None ->
  analyze_video flt job_id params st
    = (Ok (mkAnalyzeResponse job_id processing (j_category (start_job params j))),
       mkState (dict_set job_id (start_job params j) (jobs st))
               (match dirs st !! path_join RESULTS_DIR job_id with
                | Some _ => dirs st
                | None => <[path_join RESULTS_DIR job_id := ∅]> (dirs st)
                end)
               (tasks st ++ [mkTask job_id (j_file_path j)
                                    (path_join RESULTS_DIR job_id) (fps params)
                                    (j_category (start_job params j)) Running])).
Proof.
  intros Hg Hf.
  assert (Hm : dict_mem job_id (jobs st) = true) by (apply dict_mem_get; eauto).
  unfold analyze_video, mkdir_exist_ok, start_job. munfold.
  rewrite Hm. simpl. rewrite Hg. simpl.
  destruct (truthy_opt (p_category params)) eqn:Hc;
    destruct (dirs st !! path_join RESULTS_DIR job_id) eqn:Hd;
    repeat (progress (simpl; rewrite ?dict_get_set_eq, ?dict_set_set, ?Hf, ?Hd));
    reflexivity.
Qed.

(** C4, as stated, fails: a negative sampling rate is accepted and the
    record is rewritten and the result directory created. *)
Lemma analyze_video_accepts_negative_fps :
  let params := mkParams (-1) "green" None in
  let st' := snd (analyze_video no_faults "j1" params st_uploaded) in
  (fps params <= 0)%Q /\
  fst (analyze_video no_faults "j1" params st_uploaded)
    = Ok (mkAnalyzeResponse "j1" processing (Some "gold")) /\
  j_status <$> dict_get "j1" (jobs st_uploaded) = Some uploaded /\
  j_status <$> dict_get "j1" (jobs st') = Some processing /\
  j_params <$> dict_get "j1" (jobs st') = Some (Some params) /\
  dirs st_uploaded !! "results/j1" = None /\
  dirs st' !! "results/j1" = Some ∅.
Proof. vm_compute. repeat split; intros; discriminate. Qed.

(** C4, amended: [AnalysisParams] carries no range check, so on an
    existing job [analyze_video] accepts every parameter record, a
    non-positive [fps] included: with [mkdir] not raising it answers
    "processing", the record has status processing, progress 0, the
    parameters, and the category of the parameters when that is a
    non-empty string, the result directory exists and one task is
    queued; every other record is untouched. *)
Theorem analyze_video_accepts_any_fps (flt : faults) (job_id : string)
    (params : AnalysisParams) (st : state) (j : job) :
  dict_get job_id (jobs st) = Some j ->
  flt (Mkdir (path_join RESULTS_DIR job_id)) = None ->
  let st' := snd (analyze_video flt job_id params st) in
  let j' := start_job params j in
  fst (analyze_video flt job_id params st)
    = Ok (mkAnalyzeResponse job_id processing (j_category j')) /\
  dict_get job_id (jobs st') = Some j' /\
  j_status j' = processing /\ j_progress j' = 0 /\ j_params j' = Some params /\
  j_category j' = (if truthy_opt (p_category params) then p_category params
                   else j_category j) /\
  (forall k, k <> job_id -> dict_get k (jobs st') = dict_get k (jobs st)) /\
  is_Some (dirs st' !! path_join RESULTS_DIR job_id) /\
  tasks st' = (tasks st ++ [mkTask job_id (j_file_path j) (path_join RESULTS_DIR job_id)
                                   (fps params) (j_category j') Running])%list.
Proof.
  intros Hg Hf st' j'. subst st'.
  rewrite (analyze_video_present _ _ _ _ _ Hg Hf). simpl.
  split; [done|]. split; [apply dict_get_set_eq|].
  subst j'. unfold start_job.
  assert (Hdir : is_Some
            (match dirs st !! path_join RESULTS_DIR job_id with
             | Some _ => dirs st
             | None => <[path_join RESULTS_DIR job_id := ∅]> (dirs st)
             end !! path_join RESULTS_DIR job_id)).
  { destruct (dirs st !! path_join RESULTS_DIR job_id) eqn:Hd; [eauto|].
    rewrite lookup_insert_eq. eauto. }
  destruct (truthy_opt (p_category params)) eqn:Hc; simpl;
    repeat split; try done; intros k Hk; apply dict_get_set_ne; congruence.
Qed.

(** Witness of [analyze_video_accepts_any_fps], at sampling rate 0. *)
Lemma analyze_video_accepts_any_fps_witness :
  fst (analyze_video no_faults "j1" (mkParams 0 "green" None) st_uploaded)
    = Ok (mkAnalyzeResponse "j1" processing (Some "gold")).
Proof.
  destruct (dict_get "j1" (jobs st_uploaded)) as [j|] eqn:Hg.
  - destruct (analyze_video_accepts_any_fps no_faults "j1" (mkParams 0 "green" None)
                st_uploaded j Hg eq_refl) as (Hr & _).
    rewrite Hr. vm_compute in Hg. injection Hg as <-. reflexivity.
  - vm_compute in Hg. discriminate Hg.
Defined.

(** ** Status queries *)

Lemma get_job_status_state job_id st :
  snd (get_job_status job_id st)
  = match dict_get job_id (jobs st) with
    | Some j =>
        if status_eqb (j_status j) completed && truthy (j_results j)
           && truthy_opt (j_category j)
        then with_jobs (dict_set job_id (merge_category (j_category j) j) (jobs st)) st
        else st
    | None => st
    end.
Proof.
  unfold get_job_status. munfold. unfold dict_mem.
  destruct (dict_get job_id (jobs st)) as [j|] eqn:Hg; simpl; [|done].
  rewrite Hg.
  destruct (status_eqb (j_status j) completed && truthy (j_results j)) eqn:Hc; simpl.
  - destruct (truthy_opt (j_category j)) eqn:Ht; simpl.
    + rewrite Hg. simpl. rewrite dict_get_set_eq.
      destruct (j_error j); [destruct (status_eqb (j_status j) failed)|]; reflexivity.
    + rewrite Hg.
      destruct (j_error j); [destruct (status_eqb (j_status j) failed)|]; reflexivity.
  - destruct (j_error j); [destruct (status_eqb (j_status j) failed)|]; reflexivity.
Qed.

Lemma merge_category_same_but_results c j : same_but_results j (merge_category c j).
Proof.
  unfold merge_category, same_but_results.
  destruct c; [destruct (j_results j)|]; simpl; repeat split.
Qed.

Lemma status_eqb_eq a b : status_eqb a b = true <-> a = b.
Proof. destruct a, b; simpl; split; congruence. Qed.

(** C5, as stated, fails: on the run [st_merged] the stored results of
    the completed job have no category before [get_job_status] and have
    one after it. *)
Lemma get_job_status_writes_results :
  j_results <$> dict_get "j1" (jobs st_merged)
    = Some (PDict [("bestMatch", PStr "frame_12")]) /\
  j_results <$> dict_get "j1" (jobs (snd (get_job_status "j1" st_merged)))
    = Some (PDict [("bestMatch", PStr "frame_12"); ("category", PStr "gold")]) /\
  snd (get_job_status "j1" st_merged) <> st_merged.
Proof.
  assert (H1 : j_results <$> dict_get "j1" (jobs st_merged)
               = Some (PDict [("bestMatch", PStr "frame_12")])) by reflexivity.
  assert (H2 : j_results <$> dict_get "j1" (jobs (snd (get_job_status "j1" st_merged)))
               = Some (PDict [("bestMatch", PStr "frame_12");
                              ("category", PStr "gold")])) by reflexivity.
  split; [exact H1|]. split; [exact H2|].
  intros Heq. rewrite Heq, H1 in H2. discriminate H2.
Qed.

(** C5, amended: [list_jobs] and [list_jobs_by_category] leave the state
    as it is.  [get_job_status] leaves the directories, the tasks, the
    keys of the store and every record but the queried one as they are,
    and in the queried record every key but ["results"]; the stored
    results either stay, or the job is completed with a non-empty
    category and a dict as results, and the category is written into
    that dict under ["category"]. *)
Theorem status_queries_frame (job_id : string) (st : state) :
  let st' := snd (get_job_status job_id st) in
  snd (list_jobs st) = st /\
  (forall c, snd (list_jobs_by_category c st) = st) /\
  dirs st' = dirs st /\ tasks st' = tasks st /\
  map fst (jobs st') = map fst (jobs st) /\
  (forall k, k <> job_id -> dict_get k (jobs st') = dict_get k (jobs st)) /\
  match dict_get job_id (jobs st) with
  | None => st' = st
  | Some j =>
      exists j', dict_get job_id (jobs st') = Some j' /\ same_but_results j j' /\
        (j_results j' = j_results j \/
         j_status j = completed /\
         exists c d, j_category j = Some c /\ c <> "" /\ j_results j = PDict d /\
                     j_results j' = PDict (dict_set "category" (PStr c) d))
  end.
Proof.
  intros st'. subst st'. rewrite get_job_status_state.
  split; [done|]. split.
  { intros c. unfold list_jobs_by_category. munfold.
    by destruct (negb (existsb (String.eqb c) ["gold"; "btc"; "usdcad"; "all"])). }
  destruct (dict_get job_id (jobs st)) as [j|] eqn:Hg; [|done].
  destruct (status_eqb (j_status j) completed && truthy (j_results j)
            && truthy_opt (j_category j)) eqn:Hc; simpl.
  - apply andb_prop in Hc as [Hc Hcat]. apply andb_prop in Hc as [Hs Htr].
    apply status_eqb_eq in Hs.
    split; [done|]. split; [done|].
    split; [apply dict_set_keys; eauto|].
    split; [intros k Hk; apply dict_get_set_ne; congruence|].
    exists (merge_category (j_category j) j).
    split; [apply dict_get_set_eq|]. split; [apply merge_category_same_but_results|].
    unfold merge_category.
    destruct (j_category j) as [c|] eqn:Ecat; [|by left].
    destruct (j_results j) as [| | | | |d] eqn:Eres; try by left.
    right. split; [done|]. exists c, d. simpl.
    repeat split; try done.
    intros ->. discriminate Hcat.
  - repeat split; try done. exists j. repeat split; try done. by left.
Qed.

(** ** The background task *)

Lemma update_progress_state job_id progress st :
  update_progress job_id progress st
  = (Ok tt,
     match dict_get job_id (jobs st) with
     | Some j => with_jobs (dict_set job_id (set_progress progress j) (jobs st)) st
     | None => st
     end).
Proof.
  unfold update_progress. munfold. unfold dict_mem.
  destruct (dict_get job_id (jobs st)) as [j|] eqn:Hg; simpl; [|done].
  by rewrite Hg.
Qed.

Lemma commit_state job_id sr st :
  (job_update job_id (set_status completed) ;;
   job_update job_id (set_results sr) ;;
   job_update job_id (set_progress 100)) st
  = match dict_get job_id (jobs st) with
    | Some j => (Ok tt, with_jobs (dict_set job_id (complete_job sr j) (jobs st)) st)
    | None => (Raise (KeyError job_id), st)
    end.
Proof.
  munfold. destruct (dict_get job_id (jobs st)) as [j|] eqn:Hg; simpl; [|done].
  rewrite dict_get_set_eq. simpl. rewrite dict_get_set_eq, !dict_set_set. done.
Qed.

Lemma fail_state job_id msg st :
  (job_update job_id (set_status failed) ;;
   job_update job_id (set_error msg)) st
  = match dict_get job_id (jobs st) with
    | Some j => (Ok tt, with_jobs (dict_set job_id (fail_job msg j) (jobs st)) st)
    | None => (Raise (KeyError job_id), st)
    end.
Proof.
  munfold. destruct (dict_get job_id (jobs st)) as [j|] eqn:Hg; simpl; [|done].
  rewrite dict_get_set_eq, !dict_set_set. done.
Qed.

(** The part of the [try] block before the store is written: it leaves
    the store and the tasks alone. *)
Lemma setitem_category_frame c v st :
  snd (setitem_category c v st) = st.
Proof. by destruct v. Qed.

Lemma write_file_frame flt d f st :
  jobs (snd (write_file flt d f st)) = jobs st /\
  tasks (snd (write_file flt d f st)) = tasks st.
Proof.
  unfold write_file. destruct (flt (OpenWrite d f)); [done|].
  by destruct (dirs st !! d).
Qed.

Lemma run_analysis_state flt job_id output_dir category o st :
  let '(r, st') := run_analysis flt job_id output_dir category o st in
  tasks st' = tasks st /\
  match dict_get job_id (jobs st) with
  | None => r = Raise (KeyError job_id) /\ jobs st' = jobs st
  | Some j =>
      r = Ok tt /\
      ((exists sr, jobs st' = dict_set job_id (complete_job sr j) (jobs st)) \/
       (exists msg, jobs st' = dict_set job_id (fail_job msg j) (jobs st)))
  end.
Proof.
  assert (Hh : forall e st1, jobs st1 = jobs st -> tasks st1 = tasks st ->
    let '(r, st') := (job_update job_id (set_status failed) ;;
                      job_update job_id (set_error (exn_str e))) st1 in
    tasks st' = tasks st /\
    match dict_get job_id (jobs st) with
    | None => r = Raise (KeyError job_id) /\ jobs st' = jobs st
    | Some j =>
        r = Ok tt /\
        ((exists sr, jobs st' = dict_set job_id (complete_job sr j) (jobs st)) \/
         (exists msg, jobs st' = dict_set job_id (fail_job msg j) (jobs st)))
    end).
  { intros e st1 Hj Ht. rewrite fail_state, Hj.
    destruct (dict_get job_id (jobs st)) as [j|]; simpl; rewrite ?Hj; eauto 10. }
  unfold run_analysis, try_except. rewrite mbind_run.
  destruct o as [v|msg].
  2: { apply (Hh (AnalysisError msg) st); reflexivity. }
  cbv beta iota delta [mret M_ret].
  rewrite mbind_run.
  assert (Hc : exists r1, (match category with
       | Some c =>
           if truthy_opt category then setitem_category c v
           else fun st0 => (Ok v, st0)
       | None => fun st0 => (Ok v, st0)
       end) st = (r1, st)).
  { destruct category as [c|]; [|eauto]. destruct (truthy_opt (Some c)); [|eauto].
    destruct v; simpl; eauto. }
  destruct Hc as [r1 Hc]. rewrite Hc.
  destruct r1 as [sr|e]; [|apply (Hh e st); reflexivity].
  rewrite mbind_run.
  destruct (write_file_frame flt output_dir "results.json" st) as [Hwj Hwt].
  destruct (write_file flt output_dir "results.json" st) as [[[]|e] st1];
    simpl in Hwj, Hwt; [|by apply Hh].
  rewrite commit_state, Hwj.
  destruct (dict_get job_id (jobs st)) as [j|] eqn:Hg.
  - simpl. eauto 10.
  - exact (Hh (KeyError job_id) st1 Hwj Hwt).
Qed.

(** With the record gone, [run_analysis] ends in the [KeyError] raised by
    the first write of its [except] block, whatever the analysis and the
    file system did. *)
Lemma run_analysis_absent flt job_id output_dir category o st :
  dict_get job_id (jobs st) = None ->
  fst (run_analysis flt job_id output_dir category o st) = Raise (KeyError job_id) /\
  jobs (snd (run_analysis flt job_id output_dir category o st)) = jobs st.
Proof.
  intros Hg. pose proof (run_analysis_state flt job_id output_dir category o st) as Hs.
  destruct (run_analysis flt job_id output_dir category o st) as [r st'].
  rewrite Hg in Hs. simpl. tauto.
Qed.

(** C3, on the run [deleted_in_flight]: the progress callback after the
    deletion changes nothing and raises nothing, but when the analysis
    returns, [run_analysis] ends with an uncaught [KeyError]: the write
    of ["results.json"] fails since the directory is gone, and the
    [except] block indexes [jobs] with the deleted id.  The same happens
    when the analysis itself raises. *)
Theorem run_analysis_crashes_after_delete :
  let st := st_deleted in
  update_progress "j1" 50 st = (Ok tt, st) /\
  fst (run_analysis no_faults "j1" "results/j1" (Some "gold")
         (AnalysisReturns best_match) st) = Raise (KeyError "j1") /\
  fst (run_analysis no_faults "j1" "results/j1" (Some "gold")
         (AnalysisRaises "cannot open video") st) = Raise (KeyError "j1") /\
  map t_state (tasks (run_ascii deleted_in_flight initial_state))
    = [Crashed (KeyError "j1")].
Proof.
  cbv zeta.
  assert (Hg : dict_get "j1" (jobs st_deleted) = None) by reflexivity.
  split; [by rewrite update_progress_state, Hg|].
  split; [by apply run_analysis_absent|].
  split; [by apply run_analysis_absent|].
  vm_compute. reflexivity.
Qed.


(** ** What one event does to the store *)

Lemma dict_get_set_inv {V} k k0 (v v' : V) d :
  dict_get k (dict_set k0 v d) = Some v' ->
  k = k0 /\ v' = v \/ k <> k0 /\ dict_get k d = Some v'.
Proof.
  destruct (decide (k = k0)) as [->|Hne].
  - rewrite dict_get_set_eq. intros [= <-]. by left.
  - rewrite dict_get_set_ne by done. by right.
Qed.

Lemma dict_get_del_inv {V} k k0 (v' : V) d :
  dict_get k (dict_del k0 d) = Some v' -> dict_get k d = Some v'.
Proof.
  destruct (decide (k = k0)) as [->|Hne].
  - by rewrite dict_get_del_eq.
  - by rewrite dict_get_del_ne.
Qed.

Lemma dict_get_foldl_del_inv {V} k ks (v' : V) d :
  dict_get k (foldl (fun d k => dict_del k d) d ks) = Some v' -> dict_get k d = Some v'.
Proof.
  revert d. induction ks as [|k0 ks IH]; intros d; simpl; [done|].
  intros Hg. apply IH in Hg. by apply dict_get_del_inv in Hg.
Qed.

Lemma fmap_snd {A B} (f : A -> B) (m : M A) st : snd ((f <$> m) st) = snd (m st).
Proof. unfold fmap, M_fmap. by destruct (m st) as [[a|e] st']. Qed.

Lemma upload_video_jobs `{PyStr} flt filename category uuid now st :
  let st' := snd (upload_video flt filename category uuid now st) in
  jobs st' = jobs st \/
  jobs st' = dict_set uuid (new_job filename category uuid now) (jobs st).
Proof.
  unfold upload_video, mkdir_exist_ok, new_job. munfold.
  destruct (negb (endswith_any (str_lower filename) VIDEO_EXTENSIONS)); [by left|].
  destruct (negb (upload_category_ok category)); [by left|].
  destruct (flt (Mkdir (path_join UPLOAD_DIR uuid))); [by left|].
  assert (Hw : forall st1, jobs st1 = jobs st ->
    let st' := snd (let (r, st2) := write_upload flt uuid filename st1 in
                    match r with
                    | Ok _ =>
                        (Ok (mkUploadResponse uuid filename uploaded category),
                         with_jobs
                           (dict_set uuid
                              (mkJob uuid uploaded filename
                                 (path_div (path_join UPLOAD_DIR uuid) filename)
                                 now PNone 0 category None None) (jobs st2)) st2)
                    | Raise e => (Raise e, st2)
                    end) in
    jobs st' = jobs st \/
    jobs st' = dict_set uuid
                 (mkJob uuid uploaded filename
                    (path_div (path_join UPLOAD_DIR uuid) filename)
                    now PNone 0 category None None) (jobs st)).
  { intros st1 Hj.
    destruct (write_upload_state flt uuid filename st1)
      as [(msg & _ & ->)|[_ [->|(p & name & fs & _ & ->)]]]; simpl; rewrite ?Hj; auto. }
  destruct (dirs st !! path_join UPLOAD_DIR uuid); simpl; by apply Hw.
Qed.

Lemma analyze_video_jobs flt job_id params st :
  jobs (snd (analyze_video flt job_id params st))
  = match dict_get job_id (jobs st) with
    | Some j => dict_set job_id (start_job params j) (jobs st)
    | None => jobs st
    end.
Proof.
  destruct (dict_get job_id (jobs st)) as [j|] eqn:Hg.
  2: { by rewrite analyze_video_absent. }
  destruct (flt (Mkdir (path_join RESULTS_DIR job_id))) as [msg|] eqn:Hf.
  2: { by rewrite (analyze_video_present _ _ _ _ _ Hg Hf). }
  assert (Hm : dict_mem job_id (jobs st) = true) by (apply dict_mem_get; eauto).
  unfold analyze_video, mkdir_exist_ok, start_job. munfold.
  rewrite Hm. simpl. rewrite Hg. simpl.
  destruct (truthy_opt (p_category params)) eqn:Hc;
    repeat (progress (simpl; rewrite ?dict_get_set_eq, ?dict_set_set, ?Hf));
    reflexivity.
Qed.

Lemma remove_jobs_jobs flt ks n st :
  exists ks', jobs (snd (remove_jobs flt ks n st))
              = foldl (fun d k => dict_del k d) (jobs st) ks'.
Proof.
  revert n st. induction ks as [|k ks IH]; intros n st; simpl.
  - by exists [].
  - munfold.
    assert (Hgo : forall st1, jobs st1 = dict_del k (jobs st) ->
      exists ks', jobs (snd (
        let (r, st') := rmtree_if_exists flt (path_join UPLOAD_DIR k) st1 in
        match r with
        | Ok _ =>
            let (r0, st'0) := rmtree_if_exists flt (path_join RESULTS_DIR k) st' in
            match r0 with
            | Ok _ => remove_jobs flt ks (S n) st'0
            | Raise e => (Raise e, st'0)
            end
        | Raise e => (Raise e, st')
        end)) = foldl (fun d k => dict_del k d) (jobs st) ks').
    { intros st1 Hj1.
      pose proof (rmtree_if_exists_jobs flt (path_join UPLOAD_DIR k) st1) as H1.
      destruct (rmtree_if_exists flt (path_join UPLOAD_DIR k) st1) as [[[]|e] st2];
        simpl in H1.
      2: { exists [k]. simpl. congruence. }
      pose proof (rmtree_if_exists_jobs flt (path_join RESULTS_DIR k) st2) as H2.
      destruct (rmtree_if_exists flt (path_join RESULTS_DIR k) st2) as [[[]|e] st3];
        simpl in H2.
      2: { exists [k]. simpl. congruence. }
      destruct (IH (S n) st3) as [ks' Hk]. exists (k :: ks'). simpl.
      rewrite Hk. congruence. }
    destruct (dict_mem k (jobs st)) eqn:Hm; simpl; apply Hgo; [done|].
    apply dict_mem_false in Hm. by rewrite dict_del_absent.
Qed.

Lemma task_progress_state k p st :
  exists st', task_progress k p st = (Ok tt, st') /\
    (st' = st \/ exists job_id, st' = snd (update_progress job_id p st)).
Proof.
  unfold task_progress. destruct (tasks st !! k) as [t|]; [|by eauto].
  destruct (t_state t); eauto.
  rewrite update_progress_state. eexists. split; [done|]. right.
  exists (t_job_id t). by rewrite update_progress_state.
Qed.

(** The [try] block up to the write of ["results.json"] leaves the
    store and the tasks alone. *)
Lemma run_analysis_prepare_frame flt output_dir category o st :
  jobs (snd (run_analysis_prepare flt output_dir category o st)) = jobs st /\
  tasks (snd (run_analysis_prepare flt output_dir category o st)) = tasks st.
Proof.
  unfold run_analysis_prepare. rewrite mbind_run.
  destruct o as [v|msg]; [|done].
  cbv beta iota delta [mret M_ret]. rewrite mbind_run.
  assert (Hc : exists r1, (match category with
       | Some c =>
           if truthy_opt category then setitem_category c v
           else fun st0 => (Ok v, st0)
       | None => fun st0 => (Ok v, st0)
       end) st = (r1, st)).
  { destruct category as [c|]; [|eauto]. destruct (truthy_opt (Some c)); [|eauto].
    destruct v; simpl; eauto. }
  destruct Hc as [r1 ->]. destruct r1 as [sr|e]; [|done].
  rewrite mbind_run.
  destruct (write_file_frame flt output_dir "results.json" st) as [Hwj Hwt].
  by destruct (write_file flt output_dir "results.json" st) as [[[]|e] st1].
Qed.

(** The end of the analysis writes no record; it moves a running task
    and no other. *)
Lemma task_finish_state flt k o st :
  exists st', task_finish flt k o st = (Ok tt, st') /\ jobs st' = jobs st /\
    (tasks st' = tasks st \/
     exists t s, tasks st !! k = Some t /\ t_state t = Running /\
                 tasks st' = <[k := set_task_state s t]> (tasks st)).
Proof.
  unfold task_finish. destruct (tasks st !! k) as [t|] eqn:Hk; [|by eauto].
  destruct (t_state t) eqn:Hs; eauto.
  destruct (run_analysis_prepare_frame flt (t_output_dir t) (t_category t) o st)
    as [Hj Ht].
  destruct (run_analysis_prepare flt (t_output_dir t) (t_category t) o st)
    as [r st1]. simpl in Hj, Ht.
  eexists. split; [done|]. simpl. split; [done|]. right.
  exists t. eexists. by rewrite Ht.
Qed.

Lemma task_abort_state k msg st :
  exists st', task_abort k msg st = (Ok tt, st') /\ jobs st' = jobs st /\
    dirs st' = dirs st /\
    (tasks st' = tasks st \/
     exists t, tasks st !! k = Some t /\ t_state t = Running /\
               tasks st' = <[k := set_task_state (Aborted msg) t]> (tasks st)).
Proof.
  unfold task_abort. destruct (tasks st !! k) as [t|] eqn:Hk; [|by eauto 10].
  destruct (t_state t) eqn:Hs; eauto 10.
Qed.

(** One statement of a task: one write of one record, or, with the
    record gone, no write; the directories are left alone. *)
Lemma task_resume_state k st :
  exists st', task_resume k st = (Ok tt, st') /\ dirs st' = dirs st /\
    (st' = st \/
     exists t, tasks st !! k = Some t /\
       ((exists sr w, t_state t = Completing sr w /\
           match dict_get (t_job_id t) (jobs st) with
           | Some j =>
               jobs st' = dict_set (t_job_id t) (completion_update sr w j) (jobs st) /\
               tasks st' = <[k := set_task_state (after_completion_write sr w) t]>
                             (tasks st)
           | None =>
               jobs st' = jobs st /\
               tasks st' = <[k := set_task_state
                                    (Failing (exn_str (KeyError (t_job_id t)))
                                       WriteFailed) t]> (tasks st)
           end) \/
        (exists msg w, t_state t = Failing msg w /\
           match dict_get (t_job_id t) (jobs st) with
           | Some j =>
               jobs st' = dict_set (t_job_id t) (failure_update msg w j) (jobs st) /\
               tasks st' = <[k := set_task_state (after_failure_write msg w) t]>
                             (tasks st)
           | None =>
               jobs st' = jobs st /\
               tasks st' = <[k := set_task_state (Crashed (KeyError (t_job_id t))) t]>
                             (tasks st)
           end))).
Proof.
  unfold task_resume. destruct (tasks st !! k) as [t|] eqn:Hk; [|by eauto].
  destruct (t_state t) as [|sr w|msg w| | |] eqn:Hs; eauto.
  - destruct (dict_get (t_job_id t) (jobs st)) as [j|] eqn:Hg.
    + rewrite (job_update_ok _ _ _ _ Hg). eexists. split; [done|]. split; [done|].
      right. exists t. split; [done|]. left. exists sr, w. by rewrite Hg.
    + rewrite (job_update_absent _ _ _ Hg). eexists. split; [done|]. split; [done|].
      right. exists t. split; [done|]. left. exists sr, w. by rewrite Hg.
  - destruct (dict_get (t_job_id t) (jobs st)) as [j|] eqn:Hg.
    + rewrite (job_update_ok _ _ _ _ Hg). eexists. split; [done|]. split; [done|].
      right. exists t. split; [done|]. right. exists msg, w. by rewrite Hg.
    + rewrite (job_update_absent _ _ _ Hg). eexists. split; [done|]. split; [done|].
      right. exists t. split; [done|]. right. exists msg, w. by rewrite Hg.
Qed.





Section StepFacts.
Context {Lower : PyStr} {Float : PyFloat}.



Lemma step_jobs flt ev st k j' :
  dict_get k (jobs (snd (step flt ev st))) = Some j' ->
  job_created ev j' \/
  exists j, dict_get k (jobs st) = Some j /\ (j' = j \/ job_write ev j j').
Proof.
  destruct ev as [filename category uuid now|job_id params|job_id| |c|job_id|now
                 |n p|n o|n|n msg]; simpl step.
  - rewrite fmap_snd.
    destruct (upload_video_jobs flt filename category uuid now st) as [-> | ->].
    + eauto.
    + intros Hg. apply dict_get_set_inv in Hg as [[-> ->]|[Hne Hg]]; simpl; eauto.
  - rewrite fmap_snd, analyze_video_jobs.
    destruct (dict_get job_id (jobs st)) as [j|] eqn:Hj; [|eauto].
    intros Hg. apply dict_get_set_inv in Hg as [[-> ->]|[Hne Hg]]; simpl; eauto.
  - rewrite fmap_snd, get_job_status_state.
    destruct (dict_get job_id (jobs st)) as [j|] eqn:Hj; [|eauto].
    destruct (_ && _); [|eauto]. simpl.
    intros Hg. apply dict_get_set_inv in Hg as [[-> ->]|[Hne Hg]]; simpl; eauto.
  - rewrite fmap_snd. simpl. eauto.
  - rewrite fmap_snd. unfold list_jobs_by_category. munfold.
    destruct (negb _); simpl; eauto.
  - rewrite fmap_snd, delete_job_jobs. intros Hg.
    apply dict_get_del_inv in Hg. eauto.
  - rewrite fmap_snd. unfold cleanup_old_jobs. rewrite mbind_run. simpl.
    destruct (remove_jobs_jobs flt
                (map fst (filter (fun kv => expired now kv.2) (jobs st))) 0%nat st)
      as [ks' ->].
    intros Hg. apply dict_get_foldl_del_inv in Hg. eauto.
  - rewrite mbind_run.
    destruct (task_progress_state n p st) as (st' & -> & [->|[job_id ->]]);
      simpl; [eauto|].
    rewrite update_progress_state. simpl.
    destruct (dict_get job_id (jobs st)) as [j|] eqn:Hj; [|eauto]. simpl.
    intros Hg. apply dict_get_set_inv in Hg as [[-> ->]|[Hne Hg]]; simpl; eauto.
  - rewrite mbind_run.
    destruct (task_finish_state flt n o st) as (st' & -> & Hj & _). simpl.
    rewrite Hj. eauto.
  - rewrite mbind_run.
    destruct (task_resume_state n st) as (st' & -> & _ & [->|(t & _ & Hw)]); simpl;
      [eauto|].
    destruct Hw as [(sr & w & _ & Hw)|(msg & w & _ & Hw)];
      destruct (dict_get (t_job_id t) (jobs st)) as [j|] eqn:Hj;
      destruct Hw as [-> _]; eauto; intros Hg;
      apply dict_get_set_inv in Hg as [[-> ->]|[Hne Hg]]; eauto 10.
  - rewrite mbind_run.
    destruct (task_abort_state n msg st) as (st' & -> & Hj & _). simpl.
    rewrite Hj. eauto.
Qed.

(** A property of records that every write of the events of a run
    keeps, and that every record they add has, holds of every record
    the run leaves. *)
Lemma run_invariant (P : job -> Prop) tr :
  Forall (fun fe => (forall j j', P j -> job_write (snd fe) j j' -> P j') /\
                    (forall j', job_created (snd fe) j' -> P j')) tr ->
  forall st, (forall k j, dict_get k (jobs st) = Some j -> P j) ->
  forall k j, dict_get k (jobs (run tr st)) = Some j -> P j.
Proof.
  induction 1 as [|[flt ev] tr [Hw Hc] Htr IH]; intros st Hst; simpl; [done|].
  apply IH. intros k j Hg.
  apply step_jobs in Hg as [Hnew|(j0 & Hg0 & [->|Hwr])]; eauto.
Qed.
End StepFacts.

(** ** The projection of [get_job_status] *)

Lemma get_job_status_view job_id st j :
  dict_get job_id (jobs st) = Some j ->
  fst (get_job_status job_id st)
  = Ok (mkView (j_id j) (j_status j) (j_filename j) (j_progress j) (j_category j)
          (if status_eqb (j_status j) completed && truthy (j_results j)
           then Some (j_results (if truthy_opt (j_category j)
                                 then merge_category (j_category j) j else j))
           else None)
          (if status_eqb (j_status j) failed then j_error j else None)).
Proof.
  intros Hg. unfold get_job_status. munfold. unfold dict_mem. rewrite Hg. simpl.
  rewrite Hg.
  destruct (status_eqb (j_status j) completed && truthy (j_results j)) eqn:Hc; simpl.
  - destruct (truthy_opt (j_category j)) eqn:Ht; simpl;
      rewrite ?Hg; simpl; rewrite ?dict_get_set_eq;
      destruct (j_error j); simpl; destruct (status_eqb (j_status j) failed);
      reflexivity.
  - destruct (j_error j); simpl; destruct (status_eqb (j_status j) failed);
      reflexivity.
Qed.

Lemma get_job_status_absent job_id st :
  dict_get job_id (jobs st) = None ->
  get_job_status job_id st = (Raise (HTTPException 404 "Job not found"), st).
Proof.
  intros Hg. unfold get_job_status. munfold. unfold dict_mem. by rewrite Hg.
Qed.

(** ** Results, error and status *)



Section Lifecycle.
Context {Lower : PyStr} {Float : PyFloat}.



End Lifecycle.


(** ** Progress *)

(** C2, as stated, fails.  The callback value is stored as it comes:
    150 is shown as 150; 100 is shown while the job is processing; and
    a completed job shows 50 when a second analysis of it is still
    reporting. *)
Lemma progress_not_clamped :
  fst (get_job_status "j1" st_progress_150)
    = Ok (mkView "j1" processing "chart.mp4" 150 (Some "gold") None None) /\
  fst (get_job_status "j1" st_progress_100)
    = Ok (mkView "j1" processing "chart.mp4" 100 (Some "gold") None None) /\
  fst (get_job_status "j1" st_completed_50)
    = Ok (mkView "j1" completed "chart.mp4" 50 (Some "gold")
            (Some (PDict [("bestMatch", PStr "frame_12"); ("category", PStr "gold")]))
            None).
Proof. vm_compute. repeat split. Qed.

Section ProgressFacts.
Context {Lower : PyStr} {Float : PyFloat}.

Lemma progress_in_range tr k j :
  percentages_in_range tr ->
  dict_get k (jobs (run tr initial_state)) = Some j ->
  0 <= j_progress j <= 100.
Proof.
  intros Hr. apply (run_invariant (fun j => 0 <= j_progress j <= 100)).
  - unfold percentages_in_range in Hr. eapply Forall_impl; [exact Hr|].
    intros [flt ev] Hp. simpl in *. split.
    + intros j0 j' Hinv Hw.
      destruct ev as [| |? | | | | | | | |]; simpl in Hw; try done; subst.
      * unfold start_job. destruct (truthy_opt _); simpl; lia.
      * unfold merge_category.
        destruct (j_category j0); [destruct (j_results j0)|]; simpl; exact Hinv.
      * simpl. exact Hp.
      * destruct Hw as [(sr & w & ->)|(msg & w & ->)]; destruct w; simpl;
          first [lia|exact Hinv].
    + intros j' Hc. destruct ev; simpl in Hc; try done. subst. simpl. lia.
  - intros k0 j0 Hg. discriminate Hg.
Qed.

(** C2, amended: [update_progress] stores the value it is handed, so
    the bound is the caller's: on every run in which each value handed
    to the callback lies in [0,100], the progress shown by
    [get_job_status] lies in [0,100].  On such a run, in the state
    reached, [analyze_video] sets the progress of the job to 0 together
    with status processing, [update_progress] stores its argument,
    and [run_analysis] leaves the job either completed with progress
    100 or failed with the progress it had. *)
Theorem progress_bounded_by_callers (tr : list (faults * event)) :
  percentages_in_range tr ->
  let st := run tr initial_state in
  (forall job_id v, fst (get_job_status job_id st) = Ok v -> 0 <= v_progress v <= 100) /\
  (forall flt job_id params j, dict_get job_id (jobs st) = Some j ->
     exists j', dict_get job_id (jobs (snd (analyze_video flt job_id params st))) = Some j' /\
                j_status j' = processing /\ j_progress j' = 0) /\
  (forall job_id p j, dict_get job_id (jobs st) = Some j ->
     dict_get job_id (jobs (snd (update_progress job_id p st)))
       = Some (set_progress p j)) /\
  (forall flt job_id output_dir category o j, dict_get job_id (jobs st) = Some j ->
     exists j',
       dict_get job_id (jobs (snd (run_analysis flt job_id output_dir category o st)))
         = Some j' /\
       (j_status j' = completed /\ j_progress j' = 100 \/
        j_status j' = failed /\ j_progress j' = j_progress j)).
Proof.
  intros Hr st. split; [|split; [|split]].
  - intros job_id v Hv.
    destruct (dict_get job_id (jobs st)) as [j|] eqn:Hg.
    + rewrite (get_job_status_view _ _ _ Hg) in Hv. injection Hv as <-. simpl.
      by eapply progress_in_range.
    + rewrite get_job_status_absent in Hv by done. discriminate Hv.
  - intros flt job_id params j Hg. rewrite analyze_video_jobs, Hg.
    exists (start_job params j). split; [apply dict_get_set_eq|].
    unfold start_job. by destruct (truthy_opt _).
  - intros job_id p j Hg. rewrite update_progress_state, Hg. simpl.
    apply dict_get_set_eq.
  - intros flt job_id output_dir category o j Hg.
    pose proof (run_analysis_state flt job_id output_dir category o st) as Hs.
    destruct (run_analysis flt job_id output_dir category o st) as [r st'].
    rewrite Hg in Hs. destruct Hs as (_ & _ & [[sr Hj]|[msg Hj]]); simpl; rewrite Hj.
    + exists (complete_job sr j). split; [apply dict_get_set_eq|]. by left.
    + exists (fail_job msg j). split; [apply dict_get_set_eq|]. by right.
Qed.
End ProgressFacts.

(** Witness of [progress_bounded_by_callers], on the scenario of the
    specification. *)
Lemma progress_bounded_by_callers_witness :
  exists v,
    fst (get_job_status "j1" (run_ascii scenario initial_state)) = Ok v /\
    0 <= v_progress v <= 100.
Proof.
  assert (Hr : percentages_in_range scenario).
  { unfold percentages_in_range, scenario. repeat constructor; simpl; lia. }
  destruct (fst (get_job_status "j1" (run_ascii scenario initial_state))) as [v|e] eqn:Hv.
  - exists v. split; [reflexivity|].
    exact (proj1 (progress_bounded_by_callers scenario Hr) "j1" v Hv).
  - vm_compute in Hv. discriminate Hv.
Defined.

(** ** The store of the service is a dict *)

Lemma dict_set_wf {V} k (v : V) d : dict_wf d -> dict_wf (dict_set k v d).
Proof.
  unfold dict_wf. induction d as [|[k0 v0] d IH]; simpl.
  - intros _. apply NoDup_singleton.
  - intros Hnd. apply NoDup_cons in Hnd as [Hnot Hnd].
    destruct (String.eqb k0 k) eqn:E; simpl.
    + apply String.eqb_eq in E. subst k0. by apply NoDup_cons.
    + apply NoDup_cons. split; [|by apply IH].
      intros Hin. apply list_elem_of_In, in_map_iff in Hin as ([k1 v1] & Hk & Hin).
      simpl in Hk. subst k1. apply list_elem_of_In in Hin.
      apply String.eqb_neq in E.
      assert (Hg : dict_get k0 (dict_set k v d) = Some v1).
      { apply dict_In_get; [by apply IH|by apply list_elem_of_In]. }
      rewrite dict_get_set_ne in Hg by congruence.
      apply Hnot. apply dict_get_In in Hg.
      apply list_elem_of_In, in_map_iff. by exists (k0, v1).
Qed.

Lemma dict_del_wf {V} k (d : list (string * V)) : dict_wf d -> dict_wf (dict_del k d).
Proof.
  unfold dict_wf, dict_del. induction d as [|[k0 v0] d IH]; [done|].
  simpl. intros Hnd. apply NoDup_cons in Hnd as [Hnot Hnd].
  rewrite filter_cons. simpl. destruct (String.eqb k0 k); simpl; [by apply IH|].
  apply NoDup_cons. split; [|by apply IH].
  intros Hin. apply Hnot.
  apply list_elem_of_In, in_map_iff in Hin as (kv & Hk & Hin).
  apply list_elem_of_In, list_elem_of_filter in Hin as [_ Hin].
  apply list_elem_of_In, in_map_iff. exists kv. split; [done|by apply list_elem_of_In].
Qed.

Lemma foldl_dict_del_wf {V} ks (d : list (string * V)) :
  dict_wf d -> dict_wf (foldl (fun d k => dict_del k d) d ks).
Proof.
  revert d. induction ks as [|k ks IH]; intros d Hwf; simpl; [done|].
  by apply IH, dict_del_wf.
Qed.

Section StoreIsDict.
Context {Lower : PyStr} {Float : PyFloat}.

Lemma step_dict_wf flt ev st :
  dict_wf (jobs st) -> dict_wf (jobs (snd (step flt ev st))).
Proof.
  intros Hwf.
  destruct ev as [filename category uuid now|job_id params|job_id| |c|job_id|now
                 |n p|n o|n|n msg]; simpl step.
  - rewrite fmap_snd.
    destruct (upload_video_jobs flt filename category uuid now st) as [-> | ->];
      [done|by apply dict_set_wf].
  - rewrite fmap_snd, analyze_video_jobs.
    destruct (dict_get job_id (jobs st)); [by apply dict_set_wf|done].
  - rewrite fmap_snd, get_job_status_state.
    destruct (dict_get job_id (jobs st)); [|done].
    destruct (_ && _); [by apply dict_set_wf|done].
  - by rewrite fmap_snd.
  - rewrite fmap_snd. unfold list_jobs_by_category. munfold.
    by destruct (negb _).
  - rewrite fmap_snd, delete_job_jobs. by apply dict_del_wf.
  - rewrite fmap_snd. unfold cleanup_old_jobs. rewrite mbind_run. simpl.
    destruct (remove_jobs_jobs flt
                (map fst (filter (fun kv => expired now kv.2) (jobs st))) 0%nat st)
      as [ks' ->].
    by apply foldl_dict_del_wf.
  - rewrite mbind_run.
    destruct (task_progress_state n p st) as (st' & -> & [->|[job_id ->]]);
      simpl; [done|].
    rewrite update_progress_state. simpl.
    destruct (dict_get job_id (jobs st)); [by apply dict_set_wf|done].
  - rewrite mbind_run.
    destruct (task_finish_state flt n o st) as (st' & -> & Hj & _). simpl.
    by rewrite Hj.
  - rewrite mbind_run.
    destruct (task_resume_state n st) as (st' & -> & _ & [->|(t & _ & Hw)]); simpl;
      [done|].
    destruct Hw as [(sr & w & _ & Hw)|(msg & w & _ & Hw)];
      destruct (dict_get (t_job_id t) (jobs st)) as [j|];
      destruct Hw as [-> _]; try done; by apply dict_set_wf.
  - rewrite mbind_run.
    destruct (task_abort_state n msg st) as (st' & -> & Hj & _). simpl.
    by rewrite Hj.
Qed.

(** In every state the service reaches from a dict, the store is a
    dict. *)
Lemma run_dict_wf tr st : dict_wf (jobs st) -> dict_wf (jobs (run tr st)).
Proof.
  revert st. induction tr as [|[flt ev] tr IH]; intros st Hwf; simpl; [done|].
  by apply IH, step_dict_wf.
Qed.
End StoreIsDict.


(** * Further properties *)

(** ** Accepted file names *)

Lemma substring_whole s : String.substring 0 (String.length s) s = s.
Proof. induction s as [|c s IH]; simpl; [done|]. by rewrite IH. Qed.

Lemma substring_skip_prefix pre suffix :
  String.substring (String.length pre) (String.length suffix) (pre +:+ suffix) = suffix.
Proof. induction pre as [|c pre IH]; simpl; [apply substring_whole|done]. Qed.

Lemma string_length_app s1 s2 :
  String.length (s1 +:+ s2) = (String.length s1 + String.length s2)%nat.
Proof. induction s1 as [|c s1 IH]; simpl; [done|]. by rewrite IH. Qed.

Lemma substring_split s k :
  (k <= String.length s)%nat ->
  s = String.substring 0 k s +:+ String.substring k (String.length s - k) s.
Proof.
  revert k. induction s as [|c s IH]; intros k Hk; simpl in Hk.
  - assert (k = 0%nat) as -> by lia. done.
  - destruct k as [|k]; simpl.
    + by rewrite substring_whole.
    + change (String c (String.substring 0 k s)
              +:+ String.substring k (String.length s - k) s)
        with (String c (String.substring 0 k s
                        +:+ String.substring k (String.length s - k) s)).
      f_equal. apply IH. lia.
Qed.

Lemma endswith_spec s suffix :
  endswith s suffix = true <-> exists pre, s = pre +:+ suffix.
Proof.
  unfold endswith. split.
  - intros Hb. apply andb_prop in Hb as [Hle Heq].
    apply Nat.leb_le in Hle. apply String.eqb_eq in Heq.
    exists (String.substring 0 (String.length s - String.length suffix) s).
    pose proof (substring_split s (String.length s - String.length suffix)) as Hsp.
    replace (String.length s - (String.length s - String.length suffix))%nat
      with (String.length suffix) in Hsp by lia.
    rewrite Heq in Hsp. apply Hsp. lia.
  - intros [pre ->]. rewrite string_length_app.
    apply andb_true_intro. split; [apply Nat.leb_le; lia|].
    replace (String.length pre + String.length suffix - String.length suffix)%nat
      with (String.length pre) by lia.
    rewrite substring_skip_prefix. apply String.eqb_refl.
Qed.

Section UploadAccepts.
Context {Lower : PyStr}.

(** X1: the first check of [upload_video] passes exactly for the names
    whose lower-cased form is some text followed by one of .mp4, .avi,
    .mov, .mkv (the text may be empty). *)
Theorem upload_extension_check (filename : string) :
  endswith_any (str_lower filename) VIDEO_EXTENSIONS = true <->
  exists pre ext, In ext [".mp4"; ".avi"; ".mov"; ".mkv"] /\
                  str_lower filename = pre +:+ ext.
Proof.
  unfold endswith_any, VIDEO_EXTENSIONS. rewrite existsb_exists. split.
  - intros (ext & Hin & He). apply endswith_spec in He as [pre Hp]. eauto.
  - intros (pre & ext & Hin & Hp). exists ext. split; [done|].
    apply endswith_spec. eauto.
Qed.

Lemma dirs_grow_refl d : dirs_grow d d.
Proof. intros p fs Hp. eauto. Qed.

Lemma dirs_grow_trans d1 d2 d3 : dirs_grow d1 d2 -> dirs_grow d2 d3 -> dirs_grow d1 d3.
Proof.
  intros H12 H23 p fs Hp. destruct (H12 _ _ Hp) as (fs2 & Hp2 & Hs2).
  destruct (H23 _ _ Hp2) as (fs3 & Hp3 & Hs3). exists fs3. split; [done|set_solver].
Qed.

Lemma dirs_grow_mkdir d p : d !! p = None -> dirs_grow d (<[p := ∅]> d).
Proof.
  intros Hn q fs Hq. exists fs. split; [|done].
  rewrite lookup_insert_ne; [done|]. intros <-. congruence.
Qed.

Lemma dirs_grow_write d p f fs : d !! p = Some fs -> dirs_grow d (<[p := {[f]} ∪ fs]> d).
Proof.
  intros Hp q fs' Hq. destruct (decide (q = p)) as [->|Hne].
  - exists ({[f]} ∪ fs). rewrite lookup_insert_eq. split; [done|].
    assert (fs' = fs) by congruence. set_solver.
  - exists fs'. by rewrite lookup_insert_ne.
Qed.

Lemma mkdir_exist_ok_state flt p st :
  flt (Mkdir p) = None ->
  exists st', mkdir_exist_ok flt p st = (Ok tt, st') /\
    jobs st' = jobs st /\ tasks st' = tasks st /\
    dirs st' !! p = Some (default ∅ (dirs st !! p)) /\
    (forall q, q <> p -> dirs st' !! q = dirs st !! q).
Proof.
  intros Hf. unfold mkdir_exist_ok. rewrite Hf.
  destruct (dirs st !! p) as [fs|] eqn:Hd.
  - exists st. by rewrite Hd.
  - eexists. split; [done|]. simpl. rewrite lookup_insert_eq.
    repeat split; try done. intros q Hq. by rewrite lookup_insert_ne.
Qed.

Lemma mkdir_exist_ok_grows flt p st :
  dirs_grow (dirs st) (dirs (snd (mkdir_exist_ok flt p st))).
Proof.
  unfold mkdir_exist_ok. destruct (flt (Mkdir p)); [apply dirs_grow_refl|].
  destruct (dirs st !! p) eqn:Hd; [apply dirs_grow_refl|]. by apply dirs_grow_mkdir.
Qed.

Lemma write_upload_grows flt uuid filename st :
  dirs_grow (dirs st) (dirs (snd (write_upload flt uuid filename st))).
Proof.
  destruct (write_upload_state flt uuid filename st)
    as [(msg & _ & ->)|[_ [->|(p & name & fs & Hp & ->)]]]; simpl;
    [apply dirs_grow_refl..|by apply dirs_grow_write].
Qed.

(** An accepted upload, whatever the name of the file. *)
Lemma upload_video_ok flt filename category uuid now st :
  endswith_any (str_lower filename) VIDEO_EXTENSIONS = true ->
  upload_category_ok category = true ->
  flt (Mkdir (path_join UPLOAD_DIR uuid)) = None ->
  flt (OpenWrite (path_join UPLOAD_DIR uuid) filename) = None ->
  exists st',
    upload_video flt filename category uuid now st
      = (Ok (mkUploadResponse uuid filename uploaded category), st') /\
    jobs st' = dict_set uuid (new_job filename category uuid now) (jobs st) /\
    tasks st' = tasks st /\
    is_Some (dirs st' !! path_join UPLOAD_DIR uuid) /\
    dirs_grow (dirs st) (dirs st').
Proof.
  intros He Hc Hm Hw.
  destruct (mkdir_exist_ok_state flt (path_join UPLOAD_DIR uuid) st Hm)
    as (st1 & Hmk & Hj1 & Ht1 & Hd1 & _).
  pose proof (mkdir_exist_ok_grows flt (path_join UPLOAD_DIR uuid) st) as Hg1.
  rewrite Hmk in Hg1. simpl in Hg1.
  unfold upload_video, new_job. rewrite He, Hc. simpl.
  rewrite mbind_run, Hmk, mbind_run.
  pose proof (write_upload_grows flt uuid filename st1) as Hg2.
  destruct (write_upload_state flt uuid filename st1)
    as [(msg & Hmsg & _)|[_ [Hwr|(p & name & fs & Hp & Hwr)]]]; [congruence| |];
    rewrite Hwr in Hg2 |- *; simpl in Hg2; munfold; simpl; eexists;
    (split; [reflexivity|]); simpl; rewrite Hj1, Ht1;
    (split; [done|]); (split; [done|]);
    (split; [|by eapply dirs_grow_trans]).
  - by rewrite Hd1.
  - destruct (Hg2 _ _ Hd1) as (fs' & -> & _). eauto.
Qed.



(** X3: when [mkdir] or the write raises on an upload that passed both
    checks, the request ends in that [OSError] and no record is stored
    and no task queued; if it was the write that raised, the upload
    directory has nevertheless been created, without a job to own it. *)
Theorem upload_video_storage_failure (flt : faults) (filename : string)
    (category : option string) (uuid : string) (now : Q) (st : state) :
  endswith_any (str_lower filename) VIDEO_EXTENSIONS = true ->
  upload_category_ok category = true ->
  flt (Mkdir (path_join UPLOAD_DIR uuid)) <> None \/
  flt (OpenWrite (path_join UPLOAD_DIR uuid) filename) <> None ->
  let st' := snd (upload_video flt filename category uuid now st) in
  (exists msg, fst (upload_video flt filename category uuid now st)
               = Raise (OSError msg)) /\
  jobs st' = jobs st /\ tasks st' = tasks st /\
  (flt (Mkdir (path_join UPLOAD_DIR uuid)) <> None -> st' = st) /\
  (flt (Mkdir (path_join UPLOAD_DIR uuid)) = None ->
   is_Some (dirs st' !! path_join UPLOAD_DIR uuid)).
Proof.
  intros He Hc Hf st'. subst st'.
  unfold upload_video, mkdir_exist_ok, write_upload. munfold.
  rewrite He, Hc. simpl.
  destruct (flt (Mkdir (path_join UPLOAD_DIR uuid))) as [msg|] eqn:Hm; simpl.
  { repeat split; eauto. done. }
  destruct Hf as [Hf|Hf]; [done|].
  destruct (flt (OpenWrite (path_join UPLOAD_DIR uuid) filename)) as [msg|] eqn:Hw;
    [|done].
  destruct (dirs st !! path_join UPLOAD_DIR uuid) as [fs|] eqn:Hd; simpl;
    rewrite ?Hw; simpl; repeat split; eauto; try done.
  intros _. rewrite lookup_insert_eq. eauto.
Qed.

(** X4: right after an accepted upload, [get_job_status] on the new id
    answers with status uploaded, progress 0, the file name and the
    category, without results and without error, and changes nothing. *)
Theorem upload_then_get_job_status (flt : faults) (filename : string)
    (category : option string) (uuid : string) (now : Q) (st : state) :
  endswith_any (str_lower filename) VIDEO_EXTENSIONS = true ->
  upload_category_ok category = true ->
  flt (Mkdir (path_join UPLOAD_DIR uuid)) = None ->
  flt (OpenWrite (path_join UPLOAD_DIR uuid) filename) = None ->
  let st' := snd (upload_video flt filename category uuid now st) in
  get_job_status uuid st'
  = (Ok (mkView uuid uploaded filename 0 category None None), st').
Proof.
  intros He Hc Hm Hw st'.
  assert (Hg : dict_get uuid (jobs st') = Some (new_job filename category uuid now)).
  { subst st'.
    destruct (upload_video_ok flt filename category uuid now st He Hc Hm Hw)
      as (st1 & -> & Hj1 & _). simpl. rewrite Hj1. apply dict_get_set_eq. }
  pose proof (get_job_status_view _ _ _ Hg) as Hv.
  pose proof (get_job_status_state uuid st') as Hs. rewrite Hg in Hs.
  simpl in Hv, Hs.
  destruct (get_job_status uuid st') as [r st'']. simpl in *. by subst.
Qed.
End UploadAccepts.


(** Witness of [upload_video_storage_failure]: the disk is full. *)
Lemma upload_video_storage_failure_witness :
  exists msg,
    fst (upload_video (Lower := ascii_lower) disk_full "chart.mp4" (Some "gold") "j1"
           1000 initial_state)
    = Raise (OSError msg).
Proof.
  refine (proj1 (upload_video_storage_failure (Lower := ascii_lower) disk_full
                   "chart.mp4" (Some "gold") "j1" 1000 initial_state
                   eq_refl eq_refl _)).
  right. discriminate.
Defined.

(** Witness of [upload_then_get_job_status]. *)
Lemma upload_then_get_job_status_witness :
  get_job_status "j1" st_uploaded
  = (Ok (mkView "j1" uploaded "chart.mp4" 0 (Some "gold") None None), st_uploaded).
Proof.
  exact (upload_then_get_job_status (Lower := ascii_lower) no_faults "chart.mp4"
           (Some "gold") "j1" 1000 initial_state eq_refl eq_refl eq_refl eq_refl).
Defined.

(** ** Unknown ids, and a result directory that cannot be made *)

(** X5: on an id that is not in the store, [analyze_video] and
    [get_job_status] answer 404 and leave the state as it is: no record,
    no directory, no task is made. *)
Theorem unknown_id_not_found (flt : faults) (job_id : string)
    (params : AnalysisParams) (st : state) :
  dict_get job_id (jobs st) = None ->
  analyze_video flt job_id params st
    = (Raise (HTTPException 404 "Job not found"), st) /\
  get_job_status job_id st = (Raise (HTTPException 404 "Job not found"), st).
Proof.
  intros Hg. split; [by apply analyze_video_absent|by apply get_job_status_absent].
Qed.

(** Witness of [unknown_id_not_found], before any upload. *)
Lemma unknown_id_not_found_witness :
  analyze_video no_faults "j1" (mkParams 1 "green" None) initial_state
    = (Raise (HTTPException 404 "Job not found"), initial_state) /\
  get_job_status "j1" initial_state
    = (Raise (HTTPException 404 "Job not found"), initial_state).
Proof.
  exact (unknown_id_not_found no_faults "j1" (mkParams 1 "green" None) initial_state
           eq_refl).
Defined.

(** X6: when making the result directory raises, [analyze_video] ends in
    that [OSError] after it has rewritten the record: the job is left in
    status processing with progress 0 and the new params, but no task
    has been queued and no directory made. *)
Theorem analyze_video_mkdir_failure (flt : faults) (job_id : string)
    (params : AnalysisParams) (st : state) (j : job) (msg : string) :
  dict_get job_id (jobs st) = Some j ->
  flt (Mkdir (path_join RESULTS_DIR job_id)) = Some msg ->
  let st' := snd (analyze_video flt job_id params st) in
  fst (analyze_video flt job_id params st) = Raise (OSError msg) /\
  dict_get job_id (jobs st') = Some (start_job params j) /\
  j_status (start_job params j) = processing /\
  tasks st' = tasks st /\ dirs st' = dirs st.
Proof.
  intros Hg Hf st'. subst st'.
  assert (Hm : dict_mem job_id (jobs st) = true) by (apply dict_mem_get; eauto).
  unfold analyze_video, mkdir_exist_ok, start_job. munfold.
  rewrite Hm. simpl. rewrite Hg. simpl.
  destruct (truthy_opt (p_category params)) eqn:Hc;
    repeat (progress (simpl; rewrite ?dict_get_set_eq, ?dict_set_set, ?Hf));
    repeat split; apply dict_get_set_eq.
Qed.

(** Witness of [analyze_video_mkdir_failure]. *)
Lemma analyze_video_mkdir_failure_witness :
  fst (analyze_video mkdir_refused "j1" (mkParams 2 "green" None) st_uploaded)
    = Raise (OSError "[Errno 13] Permission denied") /\
  j_status <$> dict_get "j1"
     (jobs (snd (analyze_video mkdir_refused "j1" (mkParams 2 "green" None) st_uploaded)))
    = Some processing.
Proof.
  destruct (dict_get "j1" (jobs st_uploaded)) as [j|] eqn:Hg.
  - destruct (analyze_video_mkdir_failure mkdir_refused "j1" (mkParams 2 "green" None)
                st_uploaded j _ Hg eq_refl) as (Hr & Hj & Hs & _).
    split; [exact Hr|]. rewrite Hj. exact (f_equal Some Hs).
  - vm_compute in Hg. discriminate Hg.
Defined.

(** ** Asking twice *)

Lemma dict_set_truthy k v d : truthy (PDict (dict_set k v d)) = true.
Proof. destruct d as [|[k0 v0] d]; simpl; [done|]. by destruct (String.eqb k0 k). Qed.

Lemma merge_category_idem c j :
  merge_category c (merge_category c j) = merge_category c j.
Proof.
  unfold merge_category. destruct c as [c|]; [|done].
  destruct (j_results j) eqn:Hr; simpl; rewrite ?Hr; try done.
  unfold set_results. simpl. by rewrite dict_set_set.
Qed.

Lemma merge_category_truthy c j :
  truthy (j_results j) = true -> truthy (j_results (merge_category c j)) = true.
Proof.
  unfold merge_category. destruct c as [c|]; [|done].
  destruct (j_results j) eqn:Hr; simpl; rewrite ?Hr; try done.
  intros _. apply dict_set_truthy.
Qed.

(** X7: [get_job_status] is idempotent: asked again at once, it gives the
    same answer and leaves the state it left the first time.  (Its one
    write, the category put into the stored results, is made by the first
    call.) *)
Theorem get_job_status_idempotent (job_id : string) (st : state) :
  get_job_status job_id (snd (get_job_status job_id st))
  = get_job_status job_id st.
Proof.
  destruct (dict_get job_id (jobs st)) as [j|] eqn:Hg.
  2: { rewrite (get_job_status_absent _ _ Hg). simpl.
       by rewrite (get_job_status_absent _ _ Hg). }
  pose proof (get_job_status_state job_id st) as Hs.
  pose proof (get_job_status_view _ _ _ Hg) as Hv. rewrite Hg in Hs.
  destruct (get_job_status job_id st) as [r st'] eqn:E. simpl in Hs, Hv. subst r st'.
  destruct (status_eqb (j_status j) completed && truthy (j_results j)) eqn:Hc; simpl.
  2: { rewrite E. done. }
  destruct (truthy_opt (j_category j)) eqn:Ht; simpl.
  2: { rewrite E. done. }
  apply andb_prop in Hc as [Hst Htr].
  set (j' := merge_category (j_category j) j).
  assert (Hcat : j_category j' = j_category j)
    by (apply (merge_category_same_but_results (j_category j) j)).
  assert (Hstat : j_status j' = j_status j)
    by (apply (merge_category_same_but_results (j_category j) j)).
  set (st' := with_jobs (dict_set job_id j' (jobs st)) st).
  assert (Hg' : dict_get job_id (jobs st') = Some j') by apply dict_get_set_eq.
  pose proof (get_job_status_state job_id st') as Hs'.
  pose proof (get_job_status_view _ _ _ Hg') as Hv'. rewrite Hg' in Hs'.
  destruct (get_job_status job_id st') as [r2 st2]. simpl in Hs', Hv'. subst r2 st2.
  assert (Htr' : truthy (j_results j') = true) by by apply merge_category_truthy.
  assert (Hidem : merge_category (j_category j) j' = j') by apply merge_category_idem.
  pose proof (merge_category_same_but_results (j_category j) j) as Hsame.
  fold j' in Hsame.
  destruct Hsame as (Hid & _ & Hfn & _ & _ & Hpr & _ & _ & Herr).
  rewrite Hcat, Hstat, Hst, Htr', Ht, Hidem, Hid, Hfn, Hpr, Herr. simpl.
  f_equal. unfold st', with_jobs. simpl. by rewrite dict_set_set.
Qed.

(** ** Listing: unknown filters, and ties *)

(** X8: a filter other than gold, btc, usdcad and all is answered 400 by
    [list_jobs_by_category], and the state is as before. *)
Theorem list_jobs_by_category_rejects (category : string) (st : state) :
  ~ In category ["gold"; "btc"; "usdcad"; "all"] ->
  exists detail,
    list_jobs_by_category category st = (Raise (HTTPException 400 detail), st).
Proof.
  intros Hn. unfold list_jobs_by_category.
  destruct (existsb (String.eqb category) ["gold"; "btc"; "usdcad"; "all"]) eqn:Hx.
  - apply existsb_exists in Hx as (c & Hin & Heq).
    apply String.eqb_eq in Heq. subst c. contradiction.
  - simpl. eauto.
Qed.

(** Witness of [list_jobs_by_category_rejects]: the category of the
    scenario of the specification. *)
Lemma list_jobs_by_category_rejects_witness :
  exists detail,
    list_jobs_by_category "eth" st_three_jobs
    = (Raise (HTTPException 400 detail), st_three_jobs).
Proof.
  apply (list_jobs_by_category_rejects "eth" st_three_jobs).
  simpl. intros [H|[H|[H|[H|[]]]]]; discriminate H.
Defined.

Lemma insert_newest_first_filter x l q :
  filter (fun s => Qeq_bool (s_created_at s) q) (insert_newest_first x l)
  = filter (fun s => Qeq_bool (s_created_at s) q) (x :: l).
Proof.
  induction l as [|y l IH]; simpl; [done|].
  destruct (Qle_bool (s_created_at y) (s_created_at x)) eqn:E; [done|].
  rewrite filter_cons, IH, !filter_cons.
  destruct (Qeq_bool (s_created_at x) q) eqn:Ex; simpl; [|done].
  destruct (Qeq_bool (s_created_at y) q) eqn:Ey; simpl; [|done].
  exfalso. apply Qeq_bool_iff in Ex, Ey.
  assert (Hle : (s_created_at y <= s_created_at x)%Q)
    by (rewrite Ex, Ey; apply Qle_refl).
  apply Qle_bool_iff in Hle. congruence.
Qed.

(** X9: the sort of [list_jobs] is stable: the jobs that share one
    creation time are listed in the order in which the store holds them,
    that is, in the order of their upload. *)
Theorem list_jobs_keeps_order_of_ties (st : state) (q : Q) :
  exists l,
    list_jobs st = (Ok l, st) /\
    filter (fun s => Qeq_bool (s_created_at s) q) l
    = filter (fun s => Qeq_bool (s_created_at s) q)
             (map (fun kv => summary_of (snd kv)) (jobs st)).
Proof.
  eexists. split; [reflexivity|].
  induction (map (fun kv => summary_of (snd kv)) (jobs st)) as [|x l IH]; [done|].
  simpl. rewrite insert_newest_first_filter, !filter_cons, IH. done.
Qed.

(** ** Which events add or remove records *)

Section IdsKept.
Context {Lower : PyStr} {Float : PyFloat}.

(** X10: only [upload_video], [delete_job] and [cleanup_old_jobs] change
    which ids the store holds.  Starting an analysis, a status query, a
    listing, a progress callback and the end of a background task leave
    the ids and their order as they are, under every behaviour of the
    file system; so a task that ends after its job was deleted does not
    bring the record back. *)
Theorem step_keeps_ids (flt : faults) (ev : event) (st : state) :
  keeps_ids ev = true ->
  map fst (jobs (snd (step flt ev st))) = map fst (jobs st).
Proof.
  intros Hk.
  destruct ev as [filename category uuid now|job_id params|job_id| |c|job_id|now
                 |n p|n o|n|n msg]; try discriminate Hk; simpl step.
  - rewrite fmap_snd, analyze_video_jobs.
    destruct (dict_get job_id (jobs st)) eqn:Hg; [|done].
    apply dict_set_keys. eauto.
  - rewrite fmap_snd, get_job_status_state.
    destruct (dict_get job_id (jobs st)) eqn:Hg; [|done].
    destruct (_ && _); [|done]. apply dict_set_keys. eauto.
  - by rewrite fmap_snd.
  - rewrite fmap_snd. unfold list_jobs_by_category. munfold. by destruct (negb _).
  - rewrite mbind_run.
    destruct (task_progress_state n p st) as (st' & -> & [->|[job_id ->]]);
      simpl; [done|].
    rewrite update_progress_state. simpl.
    destruct (dict_get job_id (jobs st)) eqn:Hg; [|done].
    apply dict_set_keys. eauto.
  - rewrite mbind_run.
    destruct (task_finish_state flt n o st) as (st' & -> & Hj & _). simpl.
    by rewrite Hj.
  - rewrite mbind_run.
    destruct (task_resume_state n st) as (st' & -> & _ & [->|(t & _ & Hw)]); simpl;
      [done|].
    destruct Hw as [(sr & w & _ & Hw)|(msg & w & _ & Hw)];
      destruct (dict_get (t_job_id t) (jobs st)) as [j|] eqn:Hg;
      destruct Hw as [-> _]; try done; apply dict_set_keys; eauto.
  - rewrite mbind_run.
    destruct (task_abort_state n msg st) as (st' & -> & Hj & _). simpl.
    by rewrite Hj.
Qed.
End IdsKept.

(** Witness of [step_keeps_ids]: the analysis of a deleted job returns. *)
Lemma step_keeps_ids_witness :
  map fst (jobs (snd (step (Lower := ascii_lower) (Float := exact_sub) no_faults
                        (Finish 0%nat (AnalysisReturns best_match)) st_deleted)))
  = map fst (jobs st_deleted).
Proof.
  exact (step_keeps_ids (Lower := ascii_lower) (Float := exact_sub) no_faults
           (Finish 0%nat (AnalysisReturns best_match)) st_deleted eq_refl).
Defined.

(** ** The end of the background task *)

(** X11: when the analysis returns a dict for a job that is still stored,
    the result directory exists and the write does not raise,
    [run_analysis] returns normally; the record gets status completed,
    progress 100 and the dict as results, with the category of the task
    under ["category"] when that category is a non-empty string;
    ["results.json"] is in the result directory; the identity of the
    record, its params and a stale error, every other record, every other
    directory and the tasks are as before. *)
Theorem run_analysis_completes (flt : faults) (job_id output_dir : string)
    (category : option string) (d : list (string * pyval)) (st : state)
    (j : job) (fs : gset string) :
  dict_get job_id (jobs st) = Some j ->
  dirs st !! output_dir = Some fs ->
  flt (OpenWrite output_dir "results.json") = None ->
  let results :=
    match category with
    | Some c => if truthy_opt category then PDict (dict_set "category" (PStr c) d)
                else PDict d
    | None => PDict d
    end in
  run_analysis flt job_id output_dir category (AnalysisReturns (PDict d)) st
  = (Ok tt,
     mkState
       (dict_set job_id
          (mkJob (j_id j) completed (j_filename j) (j_file_path j) (j_created_at j)
                 results 100 (j_category j) (j_params j) (j_error j))
          (jobs st))
       (<[output_dir := {["results.json"]} ∪ fs]> (dirs st))
       (tasks st)).
Proof.
  intros Hg Hd Hw results. subst results.
  unfold run_analysis, setitem_category, write_file. munfold.
  destruct category as [c|]; [destruct (truthy_opt (Some c))|]; simpl;
    rewrite Hw, Hd; simpl; rewrite Hg; simpl;
    rewrite !dict_get_set_eq; simpl; rewrite !dict_get_set_eq, !dict_set_set;
    reflexivity.
Qed.

(** Witness of [run_analysis_completes]: the scenario of the
    specification. *)
Lemma run_analysis_completes_witness :
  fst (run_analysis no_faults "j1" "results/j1" (Some "gold")
         (AnalysisReturns best_match) st_started) = Ok tt.
Proof.
  destruct (dict_get "j1" (jobs st_started)) as [j|] eqn:Hg;
    [|vm_compute in Hg; discriminate Hg].
  destruct (dirs st_started !! "results/j1") as [fs|] eqn:Hd;
    [|vm_compute in Hd; discriminate Hd].
  unfold best_match.
  by rewrite (run_analysis_completes no_faults "j1" "results/j1" (Some "gold")
                [("bestMatch", PStr "frame_12")] st_started j fs Hg Hd eq_refl).
Defined.

(** X12: when the analysis raises for a job that is still stored, the
    exception does not leave [run_analysis]: the record gets status
    failed and the text of the exception as error, keeps its progress
    and results, and nothing else in the state changes (no
    ["results.json"] is written). *)
Theorem run_analysis_records_failure (flt : faults) (job_id output_dir : string)
    (category : option string) (msg : string) (st : state) (j : job) :
  dict_get job_id (jobs st) = Some j ->
  run_analysis flt job_id output_dir category (AnalysisRaises msg) st
  = (Ok tt,
     mkState
       (dict_set job_id
          (mkJob (j_id j) failed (j_filename j) (j_file_path j) (j_created_at j)
                 (j_results j) (j_progress j) (j_category j) (j_params j) (Some msg))
          (jobs st))
       (dirs st) (tasks st)).
Proof.
  intros Hg. unfold run_analysis. munfold. simpl. rewrite Hg. simpl.
  rewrite dict_get_set_eq, dict_set_set. reflexivity.
Qed.

(** Witness of [run_analysis_records_failure]. *)
Lemma run_analysis_records_failure_witness :
  fst (run_analysis no_faults "j1" "results/j1" (Some "gold")
         (AnalysisRaises "cannot open video") st_started) = Ok tt.
Proof.
  destruct (dict_get "j1" (jobs st_started)) as [j|] eqn:Hg;
    [|vm_compute in Hg; discriminate Hg].
  by rewrite (run_analysis_records_failure no_faults "j1" "results/j1" (Some "gold")
                "cannot open video" st_started j Hg).
Defined.

(** X13: when the task carries a non-empty category and the analysis
    returns something that is not a dict, the assignment of the category
    raises [TypeError] inside the [try] block: the job ends failed, with
    the text of that error, although the analysis succeeded, and
    ["results.json"] is not written. *)
Theorem run_analysis_non_dict_results (flt : faults) (job_id output_dir c : string)
    (v : pyval) (st : state) (j : job) :
  dict_get job_id (jobs st) = Some j ->
  c <> "" ->
  (forall d, v <> PDict d) ->
  exists msg,
    run_analysis flt job_id output_dir (Some c) (AnalysisReturns v) st
    = (Ok tt,
       mkState
         (dict_set job_id
            (mkJob (j_id j) failed (j_filename j) (j_file_path j) (j_created_at j)
                   (j_results j) (j_progress j) (j_category j) (j_params j)
                   (Some msg))
            (jobs st))
         (dirs st) (tasks st)).
Proof.
  intros Hg Hc Hv.
  assert (Ht : truthy_opt (Some c) = true).
  { simpl. apply negb_true_iff, String.eqb_neq. done. }
  unfold run_analysis, setitem_category. munfold. rewrite Ht.
  destruct v; try (by destruct (Hv d)); simpl; rewrite Hg; simpl;
    rewrite dict_get_set_eq, dict_set_set; eauto.
Qed.

(** Witness of [run_analysis_non_dict_results]: the analysis returns a
    list. *)
Lemma run_analysis_non_dict_results_witness :
  exists msg,
    j_error <$> dict_get "j1"
      (jobs (snd (run_analysis no_faults "j1" "results/j1" (Some "gold")
                    (AnalysisReturns (PList [PStr "frame_12"])) st_started)))
    = Some (Some msg).
Proof.
  destruct (dict_get "j1" (jobs st_started)) as [j|] eqn:Hg;
    [|vm_compute in Hg; discriminate Hg].
  destruct (run_analysis_non_dict_results no_faults "j1" "results/j1" "gold"
              (PList [PStr "frame_12"]) st_started j Hg) as [msg Hr].
  - discriminate.
  - discriminate.
  - exists msg. rewrite Hr. cbn [snd jobs]. rewrite dict_get_set_eq. reflexivity.
Defined.

(** X14: [update_progress] never raises and touches nothing but the
    progress of the job it names: directories, tasks, the ids in the
    store and every other record stay, and on an id that is not stored
    the whole state stays. *)
Theorem update_progress_frame (job_id : string) (progress : Z) (st : state) :
  let st' := snd (update_progress job_id progress st) in
  fst (update_progress job_id progress st) = Ok tt /\
  dirs st' = dirs st /\ tasks st' = tasks st /\
  map fst (jobs st') = map fst (jobs st) /\
  (forall k, k <> job_id -> dict_get k (jobs st') = dict_get k (jobs st)) /\
  match dict_get job_id (jobs st) with
  | Some j =>
      dict_get job_id (jobs st')
      = Some (mkJob (j_id j) (j_status j) (j_filename j) (j_file_path j)
                    (j_created_at j) (j_results j) progress (j_category j)
                    (j_params j) (j_error j))
  | None => st' = st
  end.
Proof.
  intros st'. subst st'. rewrite update_progress_state. simpl.
  destruct (dict_get job_id (jobs st)) as [j|] eqn:Hg; simpl; [|done].
  repeat split; try done.
  - apply dict_set_keys. eauto.
  - intros k Hk. apply dict_get_set_ne. congruence.
  - apply dict_get_set_eq.
Qed.

(** ** Directories on deletion *)

Lemma path_join_inj d a b : path_join d a = path_join d b -> a = b.
Proof.
  unfold path_join. intros Heq. apply (inj (String.app d)) in Heq.
  by apply (inj (String.app "/")) in Heq.
Qed.

Lemma upload_path_not_result_path a b :
  path_join UPLOAD_DIR a <> path_join RESULTS_DIR b.
Proof. unfold path_join, UPLOAD_DIR, RESULTS_DIR. simpl. discriminate. Qed.

(** X15: [delete_job] on a stored id, with [shutil.rmtree] not raising,
    leaves neither the upload nor the result directory of that id, and
    leaves every other directory, in particular those of every other
    job, and the tasks as they are. *)
Theorem delete_job_removes_directories (flt : faults) (job_id : string) (st : state) :
  is_Some (dict_get job_id (jobs st)) ->
  flt (Rmtree (path_join UPLOAD_DIR job_id)) = None ->
  flt (Rmtree (path_join RESULTS_DIR job_id)) = None ->
  let st' := snd (delete_job flt job_id st) in
  dirs st' !! path_join UPLOAD_DIR job_id = None /\
  dirs st' !! path_join RESULTS_DIR job_id = None /\
  (forall p, p <> path_join UPLOAD_DIR job_id -> p <> path_join RESULTS_DIR job_id ->
     dirs st' !! p = dirs st !! p) /\
  (forall k, k <> job_id ->
     dirs st' !! path_join UPLOAD_DIR k = dirs st !! path_join UPLOAD_DIR k /\
     dirs st' !! path_join RESULTS_DIR k = dirs st !! path_join RESULTS_DIR k) /\
  tasks st' = tasks st.
Proof.
  intros Hs Hu Hr st'. subst st'. rewrite (delete_job_present _ _ _ Hs Hu Hr). simpl.
  assert (Hother : forall p, p <> path_join UPLOAD_DIR job_id ->
            p <> path_join RESULTS_DIR job_id ->
            delete (path_join RESULTS_DIR job_id)
              (delete (path_join UPLOAD_DIR job_id) (dirs st)) !! p = dirs st !! p).
  { intros p H1 H2. by rewrite !lookup_delete_ne. }
  split; [|split; [|split; [|split]]].
  - rewrite lookup_delete_ne
      by (intros Heq; symmetry in Heq; by apply upload_path_not_result_path in Heq).
    apply lookup_delete_eq.
  - apply lookup_delete_eq.
  - exact Hother.
  - intros k Hk. split; apply Hother.
    + intros Heq. by apply path_join_inj in Heq.
    + apply upload_path_not_result_path.
    + intros Heq. symmetry in Heq. by apply upload_path_not_result_path in Heq.
    + intros Heq. by apply path_join_inj in Heq.
  - done.
Qed.

(** Witness of [delete_job_removes_directories]. *)
Lemma delete_job_removes_directories_witness :
  dirs (snd (delete_job no_faults "j1" st_completed)) !! path_join UPLOAD_DIR "j1"
  = None.
Proof.
  refine (proj1 (delete_job_removes_directories no_faults "j1" st_completed
                   _ eq_refl eq_refl)).
  vm_compute. eauto.
Defined.

(** X16: when [shutil.rmtree] raises on the upload directory,
    [delete_job] ends in that [OSError] with the record already popped
    and with every directory still there: the result directory is not
    attempted, so the files of the job stay on disk without a job. *)
Theorem delete_job_rmtree_failure (flt : faults) (job_id : string) (st : state)
    (msg : string) :
  is_Some (dict_get job_id (jobs st)) ->
  is_Some (dirs st !! path_join UPLOAD_DIR job_id) ->
  flt (Rmtree (path_join UPLOAD_DIR job_id)) = Some msg ->
  delete_job flt job_id st
  = (Raise (OSError msg), mkState (dict_del job_id (jobs st)) (dirs st) (tasks st)).
Proof.
  intros Hs [fs Hd] Hf. apply dict_mem_get in Hs.
  unfold delete_job, rmtree_if_exists. munfold. rewrite Hs. simpl.
  by rewrite Hd, Hf.
Qed.

(** Witness of [delete_job_rmtree_failure]. *)
Lemma delete_job_rmtree_failure_witness :
  fst (delete_job rmtree_refused "j1" st_completed)
  = Raise (OSError "[Errno 13] Permission denied").
Proof.
  assert (Hj : is_Some (dict_get "j1" (jobs st_completed))) by (vm_compute; eauto).
  assert (Hd : is_Some (dirs st_completed !! path_join UPLOAD_DIR "j1"))
    by (vm_compute; eauto).
  by rewrite (delete_job_rmtree_failure rmtree_refused "j1" st_completed _ Hj Hd
                eq_refl).
Defined.

(** ** Cleanup: what it spares, and the directories *)

Lemma remove_jobs_removed flt ks n st :
  exists ks', (forall k, In k ks' -> In k ks) /\
    jobs (snd (remove_jobs flt ks n st))
    = foldl (fun d k => dict_del k d) (jobs st) ks'.
Proof.
  revert n st. induction ks as [|k ks IH]; intros n st; simpl.
  - by exists [].
  - munfold.
    assert (Hgo : forall st1, jobs st1 = dict_del k (jobs st) ->
      exists ks', (forall k', In k' ks' -> k = k' \/ In k' ks) /\
      jobs (snd (
        let (r, st') := rmtree_if_exists flt (path_join UPLOAD_DIR k) st1 in
        match r with
        | Ok _ =>
            let (r0, st'0) := rmtree_if_exists flt (path_join RESULTS_DIR k) st' in
            match r0 with
            | Ok _ => remove_jobs flt ks (S n) st'0
            | Raise e => (Raise e, st'0)
            end
        | Raise e => (Raise e, st')
        end)) = foldl (fun d k => dict_del k d) (jobs st) ks').
    { intros st1 Hj1.
      pose proof (rmtree_if_exists_jobs flt (path_join UPLOAD_DIR k) st1) as H1.
      destruct (rmtree_if_exists flt (path_join UPLOAD_DIR k) st1) as [[[]|e] st2];
        simpl in H1.
      2: { exists [k]. simpl. split; [tauto|congruence]. }
      pose proof (rmtree_if_exists_jobs flt (path_join RESULTS_DIR k) st2) as H2.
      destruct (rmtree_if_exists flt (path_join RESULTS_DIR k) st2) as [[[]|e] st3];
        simpl in H2.
      2: { exists [k]. simpl. split; [tauto|congruence]. }
      destruct (IH (S n) st3) as (ks' & Hsub & Hk). exists (k :: ks'). simpl.
      split; [intros k' [->|Hin]; auto|]. rewrite Hk. congruence. }
    destruct (dict_mem k (jobs st)) eqn:Hm; simpl; apply Hgo; [done|].
    apply dict_mem_false in Hm. by rewrite dict_del_absent.
Qed.

Lemma dict_get_foldl_del_notin {V} k ks (d : list (string * V)) :
  ~ In k ks -> dict_get k (foldl (fun d k => dict_del k d) d ks) = dict_get k d.
Proof.
  revert d. induction ks as [|k0 ks IH]; intros d Hn; simpl; [done|].
  rewrite IH by (intros Hin; apply Hn; by right).
  apply dict_get_del_ne. intros ->. apply Hn. by left.
Qed.

Section CleanupSpares.
Context {Float : PyFloat}.

Lemma unexpired_not_removed current_time (d : list (string * job)) k j :
  dict_wf d -> dict_get k d = Some j -> expired current_time j = false ->
  ~ In k (map fst (filter (fun kv => expired current_time kv.2) d)).
Proof.
  intros Hwf Hg He Hin. apply in_map_iff in Hin as ([k' j'] & Hk & Hin).
  simpl in Hk. subst k'.
  apply list_elem_of_In, list_elem_of_filter in Hin as [Hex Hin]. simpl in Hex.
  apply list_elem_of_In, (dict_In_get _ _ _ Hwf) in Hin.
  assert (j' = j) by congruence. subst. by rewrite He in Hex.
Qed.

(** X17: whatever the file system does, also when [shutil.rmtree] raises
    in the middle of the sweep, [cleanup_old_jobs] on a dict spares every
    job that is not older than 24 hours, unchanged, and every record it
    leaves was there before, unchanged. *)
Theorem cleanup_old_jobs_spares_recent (flt : faults) (current_time : Q) (st : state) :
  dict_wf (jobs st) ->
  let st' := snd (cleanup_old_jobs flt current_time st) in
  (forall k j, dict_get k (jobs st) = Some j ->
     ~ (RETENTION < current_time - j_created_at j)%Q ->
     dict_get k (jobs st') = Some j) /\
  (forall k j, dict_get k (jobs st') = Some j -> dict_get k (jobs st) = Some j).
Proof.
  intros Hwf st'. subst st'. unfold cleanup_old_jobs. rewrite mbind_run. simpl.
  destruct (remove_jobs_removed flt
              (map fst (filter (fun kv => expired current_time kv.2) (jobs st))) 0%nat st)
    as (ks' & Hsub & ->).
  split.
  - intros k j Hg Hne. rewrite dict_get_foldl_del_notin; [done|].
    intros Hin. apply Hsub in Hin. revert Hin.
    apply (unexpired_not_removed current_time (jobs st) k j Hwf Hg).
    destruct (expired current_time j) eqn:E; [|done].
    apply expired_exact in E. contradiction.
  - intros k j Hg. by apply dict_get_foldl_del_inv in Hg.
Qed.
End CleanupSpares.

(** Witness of [cleanup_old_jobs_spares_recent]: the removal of
    directories is refused; the job uploaded last is still there. *)
Lemma cleanup_old_jobs_spares_recent_witness :
  j_filename <$> dict_get "j2"
    (jobs (snd (cleanup_old_jobs (Float := exact_sub) rmtree_refused 87402
                  st_three_jobs)))
  = Some "later.mkv".
Proof.
  assert (Hwf : dict_wf (jobs st_three_jobs)).
  { unfold dict_wf. apply (bool_decide_unpack _). vm_compute. exact I. }
  destruct (dict_get "j2" (jobs st_three_jobs)) as [j|] eqn:Hg;
    [|vm_compute in Hg; discriminate Hg].
  rewrite (proj1 (cleanup_old_jobs_spares_recent (Float := exact_sub) rmtree_refused
                    87402 st_three_jobs Hwf) "j2" j Hg).
  - vm_compute in Hg. injection Hg as <-. reflexivity.
  - vm_compute in Hg. injection Hg as <-. vm_compute. discriminate.
Defined.

Lemma remove_jobs_dirs flt :
  (forall p, flt (Rmtree p) = None) ->
  forall ks n st,
    dirs (snd (remove_jobs flt ks n st))
    = foldl (fun d k => delete (path_join RESULTS_DIR k)
                          (delete (path_join UPLOAD_DIR k) d)) (dirs st) ks.
Proof.
  intros Hf. induction ks as [|k ks IH]; intros n st; simpl; [done|].
  munfold. destruct (dict_mem k (jobs st)); simpl;
    rewrite !rmtree_if_exists_ok by apply Hf; simpl; by rewrite IH.
Qed.

Lemma foldl_delete_none (ks : list string) (d : gmap string (gset string)) p :
  d !! p = None ->
  foldl (fun d k => delete (path_join RESULTS_DIR k)
                      (delete (path_join UPLOAD_DIR k) d)) d ks !! p = None.
Proof.
  revert d. induction ks as [|k ks IH]; intros d Hn; simpl; [done|].
  apply IH. rewrite !lookup_delete. repeat case_decide; done.
Qed.

Lemma foldl_delete_in (ks : list string) (d : gmap string (gset string)) k :
  In k ks ->
  foldl (fun d k => delete (path_join RESULTS_DIR k)
                      (delete (path_join UPLOAD_DIR k) d)) d ks
    !! path_join UPLOAD_DIR k = None /\
  foldl (fun d k => delete (path_join RESULTS_DIR k)
                      (delete (path_join UPLOAD_DIR k) d)) d ks
    !! path_join RESULTS_DIR k = None.
Proof.
  revert d. induction ks as [|k0 ks IH]; intros d Hin; simpl; [done|].
  destruct (decide (k0 = k)) as [->|Hne].
  - split; apply foldl_delete_none.
    + rewrite lookup_delete_ne
        by (intros Heq; symmetry in Heq; by apply upload_path_not_result_path in Heq).
      apply lookup_delete_eq.
    + apply lookup_delete_eq.
  - apply IH. destruct Hin as [Heq|Hin]; [contradiction|done].
Qed.

Lemma foldl_delete_notin (ks : list string) (d : gmap string (gset string)) k :
  ~ In k ks ->
  foldl (fun d k => delete (path_join RESULTS_DIR k)
                      (delete (path_join UPLOAD_DIR k) d)) d ks
    !! path_join UPLOAD_DIR k = d !! path_join UPLOAD_DIR k /\
  foldl (fun d k => delete (path_join RESULTS_DIR k)
                      (delete (path_join UPLOAD_DIR k) d)) d ks
    !! path_join RESULTS_DIR k = d !! path_join RESULTS_DIR k.
Proof.
  revert d. induction ks as [|k0 ks IH]; intros d Hn; simpl; [done|].
  assert (Hne : k0 <> k) by (intros ->; apply Hn; by left).
  destruct (IH (delete (path_join RESULTS_DIR k0)
                  (delete (path_join UPLOAD_DIR k0) d))) as [H1 H2].
  { intros Hin. apply Hn. by right. }
  rewrite H1, H2. split.
  - rewrite lookup_delete_ne by apply not_eq_sym, upload_path_not_result_path.
    apply lookup_delete_ne. intros Heq. by apply path_join_inj in Heq.
  - rewrite lookup_delete_ne by (intros Heq; by apply path_join_inj in Heq).
    apply lookup_delete_ne, upload_path_not_result_path.
Qed.

Section CleanupDirectories.
Context {Float : PyFloat}.

(** X18: with [shutil.rmtree] not raising, after [cleanup_old_jobs] on a
    dict neither the upload nor the result directory is left of a job
    whose age exceeds 24 hours, the age being the difference
    [current_time - created_at] as the program computes it, on doubles
    ([float_sub]); and both directories of every other job are as
    before. *)
Theorem cleanup_old_jobs_directories (flt : faults) (current_time : Q) (st : state) :
  (forall p, flt (Rmtree p) = None) ->
  dict_wf (jobs st) ->
  let st' := snd (cleanup_old_jobs flt current_time st) in
  (forall k j, dict_get k (jobs st) = Some j ->
     (RETENTION < float_sub current_time (j_created_at j))%Q ->
     dirs st' !! path_join UPLOAD_DIR k = None /\
     dirs st' !! path_join RESULTS_DIR k = None) /\
  (forall k j, dict_get k (jobs st) = Some j ->
     ~ (RETENTION < float_sub current_time (j_created_at j))%Q ->
     dirs st' !! path_join UPLOAD_DIR k = dirs st !! path_join UPLOAD_DIR k /\
     dirs st' !! path_join RESULTS_DIR k = dirs st !! path_join RESULTS_DIR k).
Proof.
  intros Hf Hwf st'. subst st'. unfold cleanup_old_jobs. rewrite mbind_run. simpl.
  rewrite (remove_jobs_dirs flt Hf). split.
  - intros k j Hg Hlt. apply foldl_delete_in.
    apply in_map_iff. exists (k, j). split; [done|].
    apply list_elem_of_In, list_elem_of_filter. split.
    + simpl. apply expired_iff in Hlt. by rewrite Hlt.
    + by apply list_elem_of_In, dict_get_In.
  - intros k j Hg Hnlt. apply foldl_delete_notin.
    apply (unexpired_not_removed current_time (jobs st) k j Hwf Hg).
    destruct (expired current_time j) eqn:E; [|done].
    apply expired_iff in E. contradiction.
Qed.
End CleanupDirectories.

(** Witness of [cleanup_old_jobs_directories]: the upload directory of
    the job uploaded more than a day before the sweep is gone. *)
Lemma cleanup_old_jobs_directories_witness :
  dirs (snd (cleanup_old_jobs (Float := exact_sub) no_faults 87402 st_three_jobs))
    !! path_join UPLOAD_DIR "j1" = None.
Proof.
  assert (Hwf : dict_wf (jobs st_three_jobs)).
  { unfold dict_wf. apply (bool_decide_unpack _). vm_compute. exact I. }
  destruct (dict_get "j1" (jobs st_three_jobs)) as [j|] eqn:Hg;
    [|vm_compute in Hg; discriminate Hg].
  refine (proj1 (proj1 (cleanup_old_jobs_directories (Float := exact_sub) no_faults
                          87402 st_three_jobs (fun _ => eq_refl) Hwf) "j1" j Hg _)).
  vm_compute in Hg. injection Hg as <-. vm_compute. reflexivity.
Defined.

(** ** The life of a record *)

Lemma job_write_identity ev j j' :
  job_write ev j j' ->
  same_identity j j' /\ status_step ev (j_status j) (j_status j').
Proof.
  unfold same_identity, status_step.
  destruct ev as [| |? | | | | | | | |]; simpl; try done.
  - intros ->. unfold start_job. destruct (truthy_opt _); simpl; auto 10.
  - intros ->.
    destruct (merge_category_same_but_results (j_category j) j)
      as (-> & -> & -> & -> & -> & _). auto 10.
  - intros ->. simpl. auto 10.
  - intros [(sr & w & ->)|(msg & w & ->)]; destruct w; simpl; auto 10.
Qed.

Section Lifecycle2.
Context {Lower : PyStr} {Float : PyFloat}.

Lemma step_jobs_keyed flt ev st k j' :
  dict_get k (jobs (snd (step flt ev st))) = Some j' ->
  (exists filename category now,
     ev = Upload filename category k now /\ j' = new_job filename category k now) \/
  exists j, dict_get k (jobs st) = Some j /\ (j' = j \/ job_write ev j j').
Proof.
  intros Hg.
  destruct (match ev with Upload _ _ _ _ => true | _ => false end) eqn:Hup.
  - destruct ev as [filename category uuid now| | | | | | | | | |];
      try discriminate Hup.
    simpl step in Hg. rewrite fmap_snd in Hg.
    destruct (upload_video_jobs flt filename category uuid now st) as [Hj|Hj];
      rewrite Hj in Hg; [eauto|].
    apply dict_get_set_inv in Hg as [[-> ->]|[Hne Hg]]; eauto 10.
  - apply step_jobs in Hg as [Hc|Hold]; [|by right].
    destruct ev; done.
Qed.

(** X19: for every event other than an upload that generates the id [k]
    anew, a record found under [k] after the event was there before it,
    with the same id, file name, file path and creation time; its status
    is the one it had, or processing if the event started an analysis, or
    completed or failed if the event ended a background task.  No other
    change of status exists; in particular nothing returns a job to
    uploaded. *)
Theorem step_lifecycle (flt : faults) (ev : event) (st : state) (k : string)
    (j' : job) :
  match ev with Upload _ _ uuid _ => uuid <> k | _ => True end ->
  dict_get k (jobs (snd (step flt ev st))) = Some j' ->
  exists j, dict_get k (jobs st) = Some j /\
            same_identity j j' /\ status_step ev (j_status j) (j_status j').
Proof.
  intros Hev Hg.
  apply step_jobs_keyed in Hg as [(f & c & n & -> & _)|(j & Hj & [->|Hw])].
  - contradiction.
  - exists j. unfold same_identity, status_step. auto 10.
  - exists j. split; [done|]. by apply job_write_identity.
Qed.

End Lifecycle2.

(** Witness of [step_lifecycle]: the analysis of the uploaded job is
    started. *)
Lemma step_lifecycle_witness :
  exists j, dict_get "j1" (jobs st_uploaded) = Some j /\ j_status j = uploaded.
Proof.
  destruct (dict_get "j1"
              (jobs (snd (step (Lower := ascii_lower) (Float := exact_sub) no_faults
                            (Analyze "j1" (mkParams 2 "green" None)) st_uploaded))))
    as [j'|] eqn:Hg.
  - destruct (step_lifecycle (Lower := ascii_lower) (Float := exact_sub) no_faults
                (Analyze "j1" (mkParams 2 "green" None)) st_uploaded "j1" j' I Hg)
      as (j & Hj & _ & _).
    exists j. split; [exact Hj|].
    vm_compute in Hj. injection Hj as <-. reflexivity.
  - vm_compute in Hg. discriminate Hg.
Defined.


(** ** Stored jobs and their upload directories *)











Section UploadDirs.
Context {Lower : PyStr} {Float : PyFloat}.



End UploadDirs.


(** ** A failing analysis stays with its job *)


